(** * Cinema Insights: a shallow embedding of [app.py] and its properties

    The program is a Streamlit script: a fixed movie table, a login and
    registration page backed by a pickled dictionary, a recommendation
    query over the table and a per-session dictionary of ratings.

    Conventions of the embedding:
    - a Python [str] is a [string]; its 8-bit characters are read as the
      code points U+0000 to U+00FF;
    - a Python [float] is a binary64 value, Rocq's primitive [float];
    - an [int] column or slider value is a [Z];
    - a [dict] whose order is never observed is a [gmap]; the ratings
      dictionary, whose order is displayed, is an association list;
    - [st.session_state], the file [users.pkl] and the messages written to
      the page are threaded explicitly. *)

From Stdlib Require Import Floats ZArith Ascii String List Lia.
From Stdlib Require Import Sorting.Sorted Sorting.Permutation.
From stdpp Require Import gmap strings list.

Local Open Scope Z_scope.

(* The decimal literals of the catalog (9.3, 8.7, ...) denote the nearest
   binary64 values, as they do in Python. *)
Set Warnings "-inexact-float".

(** ** Text: code points, case folding, UTF-8, and the regular expressions
       that [Series.str.contains] compiles *)

Module Text.

Definition ord (c : ascii) : Z := Z.of_N (N_of_ascii c).

Definition chr (n : Z) : ascii := ascii_of_N (Z.to_N n).

(** The simple lower-case mapping of Unicode on U+0000..U+00FF: the letters
    A-Z and the Latin-1 capitals U+00C0..U+00DE, the multiplication sign
    U+00D7 apart, move up by 32. *)
Definition lower (c : ascii) : ascii :=
  let n := ord c in
  if ((65 <=? n) && (n <=? 90)) || ((192 <=? n) && (n <=? 222) && negb (n =? 215))
  then chr (n + 32)
  else c.

Fixpoint str_lower (s : string) : string :=
  match s with
  | EmptyString => EmptyString
  | String c s' => String (lower c) (str_lower s')
  end.

(** [str.encode(s)]: UTF-8, one byte below U+0080 and two bytes up to
    U+00FF. *)
Definition utf8 (c : ascii) : list Z :=
  let n := ord c in
  if n <? 128 then [n]
  else [Z.lor 192 (Z.shiftr n 6); Z.lor 128 (Z.land n 63)].

Fixpoint str_encode (s : string) : list Z :=
  match s with
  | EmptyString => []
  | String c s' => utf8 c ++ str_encode s'
  end.

(** The characters with a meaning of their own in a pattern of [re]. *)
Definition re_special (c : ascii) : bool :=
  existsb (Ascii.eqb c) (list_ascii_of_string ".^$*+?{}[]\|()").

(** The fragment of [re] that is modelled: a sequence of literal characters
    and of dots. *)
Inductive re_item : Type :=
  | Literal (c : ascii)
  | AnyChar.

(** [re.compile(pat, flags=re.IGNORECASE)] on the fragment; [None] for a
    pattern with any other special character, which is outside the model
    (Python then raises [re.error] or builds an expression this embedding
    does not describe). *)
Fixpoint re_compile (pat : string) : option (list re_item) :=
  match pat with
  | EmptyString => Some []
  | String c pat' =>
      match re_compile pat' with
      | None => None
      | Some items =>
          if Ascii.eqb c "."%char then Some (AnyChar :: items)
          else if re_special c then None
          else Some (Literal c :: items)
      end
  end.

(** One pattern item against one character under [re.IGNORECASE]: a literal
    matches the characters with its lower case, a dot every character but
    the line feed. *)
Definition item_matches (i : re_item) (c : ascii) : bool :=
  match i with
  | Literal l => Ascii.eqb (lower l) (lower c)
  | AnyChar => negb (ord c =? 10)
  end.

(** The pattern matched at the start of [s]. *)
Fixpoint match_here (p : list re_item) (s : string) : bool :=
  match p, s with
  | [], _ => true
  | _ :: _, EmptyString => false
  | i :: p', String c s' => item_matches i c && match_here p' s'
  end.

(** [pattern.search(s) is not None]: a match at some position of [s]. *)
Fixpoint re_search (p : list re_item) (s : string) : bool :=
  match_here p s ||
  match s with
  | EmptyString => false
  | String _ s' => re_search p s'
  end.

(** The pattern that spells [pat] character by character. *)
Fixpoint literals (pat : string) : list re_item :=
  match pat with
  | EmptyString => []
  | String c pat' => Literal c :: literals pat'
  end.

(** A pattern with no special character: it can only match itself, up to
    case. *)
Definition plain (pat : string) : Prop :=
  Forall (fun c => re_special c = false) (list_ascii_of_string pat).

(** [sub] occurs in [s] when case is ignored: the lower-cased [s] is a
    prefix, the lower-cased [sub] and a suffix. *)
Definition contains_ci (s sub : string) : Prop :=
  exists pre post : string,
    str_lower s = (pre ++ str_lower sub ++ post)%string.

End Text.

(** ** SHA-256 (FIPS 180-4), what [hashlib.sha256(data).hexdigest()] computes *)

Module Sha256.

Definition mask32 : Z := 0xFFFFFFFF.

Definition add32 (a b : Z) : Z := Z.land (a + b) mask32.

Definition rotr (n x : Z) : Z :=
  Z.lor (Z.shiftr x n) (Z.land (Z.shiftl x (32 - n)) mask32).

Definition Ch (x y z : Z) : Z :=
  Z.lxor (Z.land x y) (Z.land (Z.lxor x mask32) z).

Definition Maj (x y z : Z) : Z :=
  Z.lxor (Z.lxor (Z.land x y) (Z.land x z)) (Z.land y z).

Definition Sigma0 (x : Z) : Z := Z.lxor (Z.lxor (rotr 2 x) (rotr 13 x)) (rotr 22 x).
Definition Sigma1 (x : Z) : Z := Z.lxor (Z.lxor (rotr 6 x) (rotr 11 x)) (rotr 25 x).
Definition sigma0 (x : Z) : Z := Z.lxor (Z.lxor (rotr 7 x) (rotr 18 x)) (Z.shiftr x 3).
Definition sigma1 (x : Z) : Z := Z.lxor (Z.lxor (rotr 17 x) (rotr 19 x)) (Z.shiftr x 10).

(** The constants of the standard are read off the first primes: the round
    constants are the first 32 bits of the fractional parts of the cube
    roots of the first sixty-four primes, the initial hash value those of
    the square roots of the first eight. *)
Definition is_prime (n : Z) : bool :=
  forallb (fun d => negb (n mod d =? 0)) (map Z.of_nat (seq 2 (Z.to_nat n - 2))).

Definition primes : list Z :=
  Eval vm_compute in List.filter is_prime (map Z.of_nat (seq 2 310)).

(** The integer cube root of [n], found bit by bit from bit [k - 1] down. *)
Fixpoint cube_root (k : nat) (n r : Z) : Z :=
  match k with
  | O => r
  | S k' =>
      let r' := r + 2 ^ Z.of_nat k' in
      cube_root k' n (if r' * r' * r' <=? n then r' else r)
  end.

Definition frac_cube_root (p : Z) : Z := Z.land (cube_root 36 (p * 2 ^ 96) 0) mask32.

Definition frac_square_root (p : Z) : Z := Z.land (Z.sqrt (p * 2 ^ 64)) mask32.

Definition K : list Z := Eval vm_compute in map frac_cube_root primes.

(** [n] as [k] big-endian bytes. *)
Fixpoint be_bytes (k : nat) (n : Z) : list Z :=
  match k with
  | O => []
  | S k' => Z.land (Z.shiftr n (8 * Z.of_nat k')) 255 :: be_bytes k' n
  end.

(** The message, the byte 0x80, zero bytes up to 56 modulo 64, and the
    length in bits on eight bytes. *)
Definition pad (msg : list Z) : list Z :=
  let len := Z.of_nat (length msg) in
  msg ++ [128] ++ repeat 0 (Z.to_nat ((55 - len) mod 64)) ++ be_bytes 8 (8 * len).

Fixpoint be_words (fuel : nat) (bs : list Z) : list Z :=
  match fuel, bs with
  | S fuel', b0 :: b1 :: b2 :: b3 :: bs' =>
      (Z.shiftl b0 24 + Z.shiftl b1 16 + Z.shiftl b2 8 + b3) :: be_words fuel' bs'
  | _, _ => []
  end.

(** The message schedule: sixteen words of the block, then forty-eight
    derived words. The list is kept newest first. *)
Fixpoint extend (n : nat) (w : list Z) : list Z :=
  match n with
  | O => w
  | S n' =>
      let wt := add32 (add32 (add32 (sigma1 (nth 1 w 0)) (nth 6 w 0))
                             (sigma0 (nth 14 w 0))) (nth 15 w 0) in
      extend n' (wt :: w)
  end.

Definition schedule (block : list Z) : list Z := rev (extend 48 (rev block)).

Record regs : Type := Regs { ra : Z; rb : Z; rc : Z; rd : Z; re : Z; rf : Z; rg : Z; rh : Z }.

Definition round (s : regs) (kw : Z * Z) : regs :=
  let t1 := add32 (add32 (add32 (add32 (rh s) (Sigma1 (re s)))
                                (Ch (re s) (rf s) (rg s))) (fst kw)) (snd kw) in
  let t2 := add32 (Sigma0 (ra s)) (Maj (ra s) (rb s) (rc s)) in
  Regs (add32 t1 t2) (ra s) (rb s) (rc s) (add32 (rd s) t1) (re s) (rf s) (rg s).

Definition compress (h : regs) (block : list Z) : regs :=
  let s := fold_left round (combine K (schedule block)) h in
  Regs (add32 (ra h) (ra s)) (add32 (rb h) (rb s)) (add32 (rc h) (rc s))
       (add32 (rd h) (rd s)) (add32 (re h) (re s)) (add32 (rf h) (rf s))
       (add32 (rg h) (rg s)) (add32 (rh h) (rh s)).

Fixpoint blocks (fuel : nat) (ws : list Z) : list (list Z) :=
  match fuel, ws with
  | O, _ => []
  | _, [] => []
  | S fuel', _ => firstn 16 ws :: blocks fuel' (skipn 16 ws)
  end.

Definition initial : regs :=
  Eval vm_compute in
  match map frac_square_root (firstn 8 primes) with
  | [a; b; c; d; e; f; g; h] => Regs a b c d e f g h
  | _ => Regs 0 0 0 0 0 0 0 0
  end.

(** The 32 bytes of the digest. *)
Definition digest (msg : list Z) : list Z :=
  let p := pad msg in
  let ws := be_words (length p) p in
  let h := fold_left compress (blocks (length ws) ws) initial in
  concat (map (be_bytes 4)
    [ra h; rb h; rc h; rd h; re h; rf h; rg h; rh h]).

Definition hex_digit (n : Z) : ascii :=
  if n <? 10 then Text.chr (48 + n) else Text.chr (87 + n).

Fixpoint hex (bs : list Z) : string :=
  match bs with
  | [] => EmptyString
  | b :: bs' => String (hex_digit (Z.shiftr b 4)) (String (hex_digit (Z.land b 15)) (hex bs'))
  end.

Definition hexdigest (msg : list Z) : string := hex (digest msg).

End Sha256.

(** ** The catalog: the table that [load_data] builds *)

Module Catalog.

Record MovieRecord : Type := Movie {
  title : string;
  genre : string;
  year : Z;
  rating : float;
  votes : Z;
  director : string;
  runtime : Z;
  revenue : float
}.

(** A [DataFrame] of movies is the list of its rows, in index order. *)
Abbreviation DataFrame := (list MovieRecord).

Definition shawshank : MovieRecord :=
  Movie "The Shawshank Redemption" "Drama" 1994 9.3 2500000 "Frank Darabont" 142 58.3.
Definition godfather : MovieRecord :=
  Movie "The Godfather" "Crime" 1972 9.2 1700000 "Francis Ford Coppola" 175 245.1.
Definition dark_knight : MovieRecord :=
  Movie "The Dark Knight" "Action" 2008 9.0 2300000 "Christopher Nolan" 152 1004.6.
Definition pulp_fiction : MovieRecord :=
  Movie "Pulp Fiction" "Crime" 1994 8.9 1900000 "Quentin Tarantino" 154 213.9.
Definition forrest_gump : MovieRecord :=
  Movie "Forrest Gump" "Drama" 1994 8.8 1800000 "Robert Zemeckis" 142 677.9.
Definition inception : MovieRecord :=
  Movie "Inception" "Action" 2010 8.8 2100000 "Christopher Nolan" 148 836.8.
Definition the_matrix : MovieRecord :=
  Movie "The Matrix" "Sci-Fi" 1999 8.7 1700000 "Lana Wachowski" 136 463.5.
Definition goodfellas : MovieRecord :=
  Movie "Goodfellas" "Crime" 1990 8.7 1000000 "Martin Scorsese" 146 47.1.
Definition silence_of_the_lambs : MovieRecord :=
  Movie "The Silence of the Lambs" "Thriller" 1991 8.6 1300000 "Jonathan Demme" 118 272.7.
Definition star_wars_v : MovieRecord :=
  Movie "Star Wars: Episode V" "Sci-Fi" 1980 8.7 1200000 "Irvin Kershner" 124 538.4.

Definition load_data : DataFrame :=
  [ shawshank; godfather; dark_knight; pulp_fiction; forrest_gump;
    inception; the_matrix; goodfellas; silence_of_the_lambs; star_wars_v ].

End Catalog.

(** ** The query engine: [get_recommendations] *)

Module Query.
Import Catalog.

(** [a >= b] on floats, as Python and numpy compare them: false as soon as
    one side is a NaN. *)
Definition float_ge (a b : float) : bool := PrimFloat.leb b a.

(** Row [a] may stand before row [b] in a frame sorted by descending
    rating. *)
Definition rating_ge (a b : MovieRecord) : Prop :=
  float_ge (rating a) (rating b) = true.

Definition no_nan (df : DataFrame) : Prop :=
  Forall (fun m => is_nan (rating m) = false) df.

(** The boolean mask of [get_recommendations] at one row, for a compiled
    genre pattern. *)
Definition mask (re : list Text.re_item) (min_rating : float)
    (years_range : Z * Z) (m : MovieRecord) : bool :=
  Text.re_search re (genre m)
  && float_ge (rating m) min_rating
  && (fst years_range <=? year m)
  && (year m <=? snd years_range).

(** [filtered_movies]: the rows of [movies] the mask keeps, in the order of
    [movies]. [str.contains] compiles [favorite_genre] as a regular
    expression ([regex=True] is its default) with [re.IGNORECASE]. *)
Definition filtered_movies (movies : DataFrame) (favorite_genre : string)
    (min_rating : float) (years_range : Z * Z) : option DataFrame :=
  match Text.re_compile favorite_genre with
  | None => None
  | Some re => Some (List.filter (mask re min_rating years_range) movies)
  end.

(** The predicate of the query in the words of the specification: the
    genre contains the requested string whatever the case, the rating is at
    least the minimum, and the year lies in the closed range. *)
Definition satisfies (favorite_genre : string) (min_rating : float)
    (years_range : Z * Z) (m : MovieRecord) : Prop :=
  Text.contains_ci (genre m) favorite_genre
  /\ float_ge (rating m) min_rating = true
  /\ fst years_range <= year m <= snd years_range.

Section GetRecommendations.

(** [df.sort_values('rating', ascending=False)]. The call leaves [kind] at
    its default, 'quicksort', which pandas does not document as stable: the
    function is a parameter, and the properties are proved from the
    contract of a sort ([sort_contract] below). *)
Variable sort_values : DataFrame -> DataFrame.

Definition get_recommendations (movies : DataFrame) (favorite_genre : string)
    (min_rating : float) (years_range : Z * Z) : option DataFrame :=
  match filtered_movies movies favorite_genre min_rating years_range with
  | None => None
  | Some filtered => Some (firstn 5 (sort_values filtered))
  end.

End GetRecommendations.

(** The filter of the Movie Explorer page: the rows of the selected genre
    (all rows for "All"), then the rows in the year range and at or above
    the minimum rating. Nothing is sorted or cut. *)
Definition explorer (movies : DataFrame) (selected_genre : string)
    (year_range : Z * Z) (min_rating : float) : DataFrame :=
  let filtered_movies :=
    if String.eqb selected_genre "All" then movies
    else List.filter (fun m => String.eqb (genre m) selected_genre) movies in
  List.filter
    (fun m => (fst year_range <=? year m) && (year m <=? snd year_range)
              && float_ge (rating m) min_rating)
    filtered_movies.

(** What [sort_values('rating', ascending=False)] promises on a frame with
    no NaN rating: the same rows, every row rated at least as high as the
    rows after it. *)
Definition sort_contract (sort_values : DataFrame -> DataFrame) : Prop :=
  forall df, no_nan df ->
    Permutation (sort_values df) df /\ StronglySorted rating_ge (sort_values df).

(** Row [a] stands at an earlier position of [df] than row [b]. *)
Definition before (df : DataFrame) (a b : MovieRecord) : Prop :=
  exists i j : nat, (i < j)%nat /\ df !! i = Some a /\ df !! j = Some b.

(** Rows of equal rating stand in [res] in the order they have in
    [movies]: whenever [a] stands before [b] in [res] and their ratings are
    equal, [a] stands before [b] in [movies]. *)
Definition ties_in_catalog_order (movies res : DataFrame) : Prop :=
  forall a b : MovieRecord,
    before res a b -> PrimFloat.eqb (rating a) (rating b) = true ->
    before movies a b.

(** A stable sort: it keeps rows of equal rating in the order of its
    argument. *)
Definition stable (sort_values : DataFrame -> DataFrame) : Prop :=
  forall df, no_nan df -> ties_in_catalog_order df (sort_values df).

(** Two sorts that meet the contract. [sort_stable] is an insertion sort
    that keeps rows of equal rating in the order of the frame;
    [sort_reversing] puts them in the opposite order. *)
Fixpoint insert_desc (m : MovieRecord) (df : DataFrame) : DataFrame :=
  match df with
  | [] => [m]
  | x :: df' =>
      if float_ge (rating m) (rating x) then m :: x :: df'
      else x :: insert_desc m df'
  end.

Definition sort_stable (df : DataFrame) : DataFrame := fold_right insert_desc [] df.

Definition sort_reversing (df : DataFrame) : DataFrame := sort_stable (rev df).

End Query.

(** ** The credential store and the login page *)

Module Auth.

(** [make_hashes]: the SHA-256 digest of the UTF-8 bytes of the password, in
    hexadecimal. *)
Definition make_hashes (password : string) : string :=
  Sha256.hexdigest (Text.str_encode password).

Definition check_hashes (password hashed_text : string) : bool :=
  String.eqb (make_hashes password) hashed_text.

(** What a file holds: a pickled dictionary of users, or bytes that
    [pickle.load] rejects. The byte format itself is not modelled. *)
Inductive file : Type :=
  | Pickled (users : gmap string string)
  | Unreadable.

(** The files of the working directory, by name. *)
Abbreviation file_system := (gmap string file).

Inductive exn : Type :=
  | FileNotFoundError
  | UnpicklingError.

Definition open_rb (fs : file_system) (path : string) : exn + file :=
  match fs !! path with
  | Some f => inr f
  | None => inl FileNotFoundError
  end.

Definition pickle_load (f : file) : exn + gmap string string :=
  match f with
  | Pickled users => inr users
  | Unreadable => inl UnpicklingError
  end.

(** [load_users]: the [try] block opens and unpickles [users.pkl]; the
    [except] clause turns [FileNotFoundError], and no other exception, into
    the empty dictionary. *)
Definition load_users (fs : file_system) : exn + gmap string string :=
  let attempt :=
    match open_rb fs "users.pkl" with
    | inl e => inl e
    | inr f => pickle_load f
    end in
  match attempt with
  | inl FileNotFoundError => inr ∅
  | other => other
  end.

(** [save_users]: the file is opened for writing and replaced as a whole. *)
Definition save_users (users : gmap string string) (fs : file_system) : file_system :=
  <["users.pkl" := Pickled users]> fs.

(** A value of the [user_ratings] dictionary: the dictionary literal that
    the Submit Rating block stores under a title. *)
Record rating_entry : Type := Entry {
  rating : Z;
  review : string;
  timestamp : float
}.

(** The keys of [st.session_state] that the script uses. [user_ratings] is
    absent until the ratings page is first shown. *)
Record session_state : Type := Session {
  authenticated : bool;
  username : option string;
  users : gmap string string;
  user_ratings : option (list (string * rating_entry))
}.

(** What a run of the script writes to the page, as far as the claims read
    it, in order. *)
Inductive element : Type :=
  | st_success (body : string)
  | st_error (body : string)
  | st_info (body : string)
  | st_dataframe (rows : list (string * Z * string)).

(** A run ends at the end of the script or at [st.rerun()]. *)
Inductive control : Type :=
  | Finished
  | Rerun.

Record world : Type := World {
  session : session_state;
  files : file_system;
  page : list element
}.

(** The widgets of the login page as one run reads them. *)
Record login_widgets : Type := LoginWidgets {
  w_username : string;
  w_password : string;
  w_submit : bool;
  w_new_username : string;
  w_new_password : string;
  w_register : bool
}.

(** The names the specification gives to the three error messages. *)
Definition UnknownUser : element := st_error "Username not found".
Definition BadPassword : element := st_error "Incorrect password".
Definition DuplicateUser : element := st_error "Username already exists".

Definition set_users (s : session_state) (u : gmap string string) : session_state :=
  Session (authenticated s) (username s) u (user_ratings s).

Definition log_in (s : session_state) (name : string) : session_state :=
  Session true (Some name) (users s) (user_ratings s).

Definition say (e : element) (w : world) : world :=
  World (session w) (files w) (page w ++ [e]).

(** The [if submit:] block of [login_page]. *)
Definition login_form (i : login_widgets) (w : world) : world * control :=
  if w_submit i then
    match users (session w) !! w_username i with
    | Some hashed_text =>
        if check_hashes (w_password i) hashed_text then
          (say (st_success "Login successful!")
               (World (log_in (session w) (w_username i)) (files w) (page w)),
           Rerun)
        else (say BadPassword w, Finished)
    | None => (say UnknownUser w, Finished)
    end
  else (w, Finished).

(** The [if register:] block of [login_page]. *)
Definition register_form (i : login_widgets) (w : world) : world * control :=
  if w_register i then
    match users (session w) !! w_new_username i with
    | Some _ => (say DuplicateUser w, Finished)
    | None =>
        let users' := <[w_new_username i := make_hashes (w_new_password i)]> (users (session w)) in
        (say (st_success "Registration successful! Please login.")
             (World (set_users (session w) users') (save_users users' (files w)) (page w)),
         Finished)
    end
  else (w, Finished).

(** [login_page]: the login block, then, unless [st.rerun()] ended the run,
    the registration block. *)
Definition login_page (i : login_widgets) (w : world) : world * control :=
  match login_form i w with
  | (w', Rerun) => (w', Rerun)
  | (w', Finished) => register_form i w'
  end.

(** The start of a session: the three [if ... not in st.session_state]
    blocks at the top of the script, on an empty session state. An
    exception of [load_users] ends the run. *)
Definition new_session (fs : file_system) : exn + session_state :=
  match load_users fs with
  | inl e => inl e
  | inr u => inr (Session false None u None)
  end.

End Auth.

(** ** The ratings page: the 'Your Ratings' branch of [main_app] *)

Module Ledger.
Import Auth.

(** A [dict] with [str] keys, in insertion order. *)
Abbreviation dict V := (list (string * V)).

(** [d[k] = v]: a key already present keeps its place and takes the new
    value; a new key goes to the end. *)
Fixpoint setitem {V : Type} (k : string) (v : V) (d : dict V) : dict V :=
  match d with
  | [] => [(k, v)]
  | (k', v') :: d' =>
      if String.eqb k' k then (k', v) :: d'
      else (k', v') :: setitem k v d'
  end.

(** [d[k]], when [k] is a key. *)
Fixpoint getitem {V : Type} (k : string) (d : dict V) : option V :=
  match d with
  | [] => None
  | (k', v') :: d' => if String.eqb k' k then Some v' else getitem k d'
  end.

Definition keys {V : Type} (d : dict V) : list string := map fst d.

(** The widgets of the ratings page as one run reads them, and the clock
    that [time.time()] reads. *)
Record rating_widgets : Type := RatingWidgets {
  selected_movie : string;
  w_rating : Z;
  w_review : string;
  w_submit_rating : bool;
  now : float
}.

Definition set_ratings (s : session_state) (d : dict rating_entry) : session_state :=
  Session (authenticated s) (username s) (users s) (Some d).

(** The rows of the history table: the columns [movie], [rating] and
    [review] of the frame built from the dictionary, one row per key, in
    the order of the dictionary. *)
Definition history (d : dict rating_entry) : list (string * Z * string) :=
  map (fun kv => (fst kv, rating (snd kv), review (snd kv))) d.

(** One run of the ratings page. *)
Definition your_ratings (i : rating_widgets) (w : world) : world :=
  let d0 := match user_ratings (session w) with Some d => d | None => [] end in
  let d1 :=
    if w_submit_rating i
    then setitem (selected_movie i) (Entry (w_rating i) (w_review i) (now i)) d0
    else d0 in
  let w1 := World (set_ratings (session w) d1) (files w) (page w) in
  let w2 :=
    if w_submit_rating i
    then say (st_success ("Thanks for rating " ++ selected_movie i ++ "!")) w1
    else w1 in
  match d1 with
  | [] => say (st_info "You haven't rated any movies yet.") w2
  | _ :: _ => say (st_dataframe (history d1)) w2
  end.

(** The ledger of a session state, empty while the key is absent. *)
Definition ledger (w : world) : dict rating_entry :=
  match user_ratings (session w) with Some d => d | None => [] end.

(** The entries of the ledger under one title. *)
Definition entries_for (t : string) (d : dict rating_entry) : dict rating_entry :=
  List.filter (fun kv => String.eqb (fst kv) t) d.

(** The titles that the history table lists, in the order of its rows. *)
Definition listed (w : world) : list string := map (fun r => fst (fst r)) (history (ledger w)).

(** The distinct elements of a list, each at the place of its first
    occurrence. *)
Fixpoint first_occurrences (l : list string) : list string :=
  match l with
  | [] => []
  | x :: l' => x :: List.filter (fun y => negb (String.eqb y x)) (first_occurrences l')
  end.

(** Successive runs of the ratings page, each with its own widget values. *)
Definition visits (runs : list rating_widgets) (w : world) : world :=
  fold_left (fun w i => your_ratings i w) runs w.

(** The titles submitted by a sequence of runs, in order. *)
Definition submitted (runs : list rating_widgets) : list string :=
  map selected_movie (List.filter w_submit_rating runs).

End Ledger.

(** ** Scenarios used to run the model *)

Module Scenario.
Import Auth Ledger.

(** A first run in an empty directory. *)
Definition first_run : world := World (Session false None ∅ None) ∅ [].

Definition alice_registers : login_widgets :=
  LoginWidgets "" "" false "alice" "correct horse" true.

Definition alice_logs_in : login_widgets :=
  LoginWidgets "alice" "correct horse" true "" "" false.

Definition alice_mistypes : login_widgets :=
  LoginWidgets "alice" "correct hors" true "" "" false.

Definition bob_logs_in : login_widgets :=
  LoginWidgets "bob" "hunter2" true "" "" false.

Definition alice_registers_again : login_widgets :=
  LoginWidgets "" "" false "alice" "another password" true.

Definition registered : world := fst (login_page alice_registers first_run).

Definition signed_in : world := fst (login_page alice_logs_in registered).

(** Runs of the ratings page. *)
Definition seven_for_inception : rating_widgets :=
  RatingWidgets "Inception" 7 "" true 1762290000%float.

Definition eight_for_the_matrix : rating_widgets :=
  RatingWidgets "The Matrix" 8 "" true 1762290030%float.

Definition looks_at_the_page : rating_widgets :=
  RatingWidgets "Forrest Gump" 5 "" false 1762290045%float.

Definition nine_for_inception : rating_widgets :=
  RatingWidgets "Inception" 9 "Better the second time." true 1762290060%float.

End Scenario.

(** ** The application: [main_app], the logout button and the script *)

Module App.
Import Catalog Query Auth Ledger.

(** [Series.unique()]: the distinct values, in order of first appearance. *)
Definition unique (l : list string) : list string := first_occurrences l.

(** The options of the two genre select boxes and of the movie select box. *)
Definition genre_options (movies : DataFrame) : list string := unique (map genre movies).

Definition movie_options (movies : DataFrame) : list string := map title movies.

(** The sections of the sidebar select box. *)
Inductive mode : Type :=
  | Dashboard
  | MovieExplorer
  | Recommendations
  | YourRatings.

(** The widgets of [main_app] as one run reads them. *)
Record app_widgets : Type := AppWidgets {
  app_mode : mode;
  selected_genre : string;
  year_range : Z * Z;
  explorer_min_rating : float;
  favorite_genre : string;
  min_rating : float;
  years_range : Z * Z;
  recommend_clicked : bool;
  rating_w : rating_widgets;
  logout_clicked : bool
}.

(** What the recommendations page writes. An expander is kept as the row
    it is built from; the text it formats from the row is not modelled. *)
Inductive rec_element : Type :=
  | rec_success (body : string)
  | rec_expander (row : MovieRecord)
  | rec_warning (body : string).

(** What a section computes and shows. The metrics and charts of the
    dashboard are not modelled; the ratings page writes to the page of the
    world. *)
Inductive content : Type :=
  | DashboardContent
  | ExplorerContent (shown : DataFrame)
  | RecommendationsContent (shown : list rec_element)
  | RatingsContent.

(** [st.session_state.authenticated = False; st.session_state.username =
    None]: the two assignments of the logout button. *)
Definition logout (s : session_state) : session_state :=
  Session false None (users s) (user_ratings s).

Section MainApp.
Variable sort_values : DataFrame -> DataFrame.

(** The body of [if st.button("Get Recommendations"):]. *)
Definition recommendations_shown (recommendations : DataFrame) : list rec_element :=
  if (0 <? length recommendations)%nat
  then rec_success "Here are movies you might enjoy:" :: map rec_expander recommendations
  else [rec_warning "No movies match your criteria. Try broadening your search."].

(** The recommendations section; [None] when the genre string is outside
    the modelled patterns. *)
Definition recommendations_page (movies : DataFrame) (i : app_widgets)
    : option (list rec_element) :=
  if recommend_clicked i then
    match get_recommendations sort_values movies (favorite_genre i) (min_rating i)
            (years_range i) with
    | None => None
    | Some recommendations => Some (recommendations_shown recommendations)
    end
  else Some [].

(** [main_app]: the selected section on the catalog of [load_data], then
    the logout button, which ends the run with [st.rerun()]. *)
Definition main_app (i : app_widgets) (w : world) : option (world * content * control) :=
  let movies := load_data in
  let section :=
    match app_mode i with
    | Dashboard => Some (w, DashboardContent)
    | MovieExplorer =>
        Some (w, ExplorerContent
                   (explorer movies (selected_genre i) (year_range i)
                      (explorer_min_rating i)))
    | Recommendations =>
        match recommendations_page movies i with
        | None => None
        | Some shown => Some (w, RecommendationsContent shown)
        end
    | YourRatings => Some (your_ratings (rating_w i) w, RatingsContent)
    end in
  match section with
  | None => None
  | Some (w1, c) =>
      if logout_clicked i
      then Some (World (logout (session w1)) (files w1) (page w1), c, Rerun)
      else Some (w1, c, Finished)
  end.

(** The widgets of one run of the script: those of the page it shows. *)
Record script_widgets : Type := ScriptWidgets {
  login_w : login_widgets;
  app_w : app_widgets
}.

(** One run of the script on a session whose state is set up: [main_app]
    when the session is authenticated, [login_page] otherwise. *)
Definition script (i : script_widgets) (w : world) : option (world * control) :=
  if authenticated (session w) then
    match main_app (app_w i) w with
    | None => None
    | Some (w', _, c) => Some (w', c)
    end
  else Some (login_page (login_w i) w).

(** The runs of a session, one after the other. *)
Fixpoint session_runs (runs : list script_widgets) (w : world) : option world :=
  match runs with
  | [] => Some w
  | i :: runs' =>
      match script i w with
      | None => None
      | Some (w', _) => session_runs runs' w'
      end
  end.

End MainApp.

(** The first run of a session in a directory: the session state is set up
    from [users.pkl], and nothing is on the page. *)
Definition start (fs : file_system) : exn + world :=
  match new_session fs with
  | inl e => inl e
  | inr s => inr (World s fs [])
  end.

(** A run that writes to the ledger: the ratings section with Submit Rating
    pressed. *)
Definition submits_rating (i : script_widgets) : bool :=
  match app_mode (app_w i) with
  | YourRatings => w_submit_rating (rating_w (app_w i))
  | _ => false
  end.

(** The entry of the last run, among [runs], that submitted a rating for
    the title [t]. *)
Fixpoint last_submission (t : string) (runs : list rating_widgets) : option rating_entry :=
  match runs with
  | [] => None
  | i :: runs' =>
      match last_submission t runs' with
      | Some e => Some e
      | None =>
          if w_submit_rating i && String.eqb (selected_movie i) t
          then Some (Entry (w_rating i) (w_review i) (now i))
          else None
      end
  end.

(** The widgets of a run that registers, and of one that logs in. *)
Definition registers (name password : string) : login_widgets :=
  LoginWidgets "" "" false name password true.

Definition logs_in (name password : string) : login_widgets :=
  LoginWidgets name password true "" "" false.

(** The session state is consistent: the session is authenticated exactly
    when it has a user name, and that name is a key of the store. *)
Definition consistent (w : world) : Prop :=
  (authenticated (session w) = true <-> is_Some (username (session w)))
  /\ (forall name, username (session w) = Some name ->
                   is_Some (users (session w) !! name)).

(** The file and the session agree: [load_users] would read the store of
    the session. *)
Definition synced (w : world) : Prop :=
  load_users (files w) = inr (users (session w)).

(** An entry as the select box and the slider can produce it: the title is
    one of the catalog and the rating lies between 1 and 10. *)
Definition offered (kv : string * rating_entry) : Prop :=
  In (fst kv) (movie_options load_data) /\ 1 <= rating (snd kv) <= 10.

(** The characters of a digest in hexadecimal. *)
Definition hex_alphabet : list ascii := list_ascii_of_string "0123456789abcdef".

(** [int(movies['year'].min())] and [int(movies['year'].max())], the ends of
    the two year sliders and the default value of the explorer's; on an
    empty frame the minimum is a NaN and [int] raises. *)
Definition year_min (movies : DataFrame) : option Z :=
  match map year movies with
  | [] => None
  | y :: ys => Some (fold_left Z.min ys y)
  end.

Definition year_max (movies : DataFrame) : option Z :=
  match map year movies with
  | [] => None
  | y :: ys => Some (fold_left Z.max ys y)
  end.

End App.

(** ** An evening with the application *)

Module Evening.
Import Catalog Query Auth Ledger App Scenario.

(** Widgets that nobody touches. *)
Definition idle_login : login_widgets := LoginWidgets "" "" false "" "" false.

Definition idle_rating : rating_widgets :=
  RatingWidgets "The Shawshank Redemption" 5 "" false 1762290000%float.

Definition idle_app : app_widgets :=
  AppWidgets Dashboard "All" (1972, 2010) 7%float "Drama" 7.5%float (1990, 2010)
             false idle_rating false.

Definition on_login (l : login_widgets) : script_widgets := ScriptWidgets l idle_app.

Definition on_app (a : app_widgets) : script_widgets := ScriptWidgets idle_login a.

Definition rates_inception : app_widgets :=
  AppWidgets YourRatings "All" (1972, 2010) 7%float "Drama" 7.5%float (1990, 2010)
             false nine_for_inception false.

Definition asks_for_crime : app_widgets :=
  AppWidgets Recommendations "All" (1972, 2010) 7%float "Crime" 8.5%float (1972, 2000)
             true idle_rating false.

Definition presses_logout : app_widgets :=
  AppWidgets Dashboard "All" (1972, 2010) 7%float "Drama" 7.5%float (1990, 2010)
             false idle_rating true.

Definition opens_ratings : app_widgets :=
  AppWidgets YourRatings "All" (1972, 2010) 7%float "Drama" 7.5%float (1990, 2010)
             false idle_rating false.

(** Alice registers, logs in, rates Inception and asks for crime movies;
    she logs out; Bob registers, logs in and opens the ratings section. *)
Definition alice_part : list script_widgets :=
  [ on_login alice_logs_in; on_app rates_inception; on_app asks_for_crime ].

Definition bob_part : list script_widgets :=
  [ on_app presses_logout; on_login (registers "bob" "hunter2");
    on_login (logs_in "bob" "hunter2"); on_app opens_ratings ].

Definition evening : list script_widgets :=
  on_login alice_registers :: alice_part ++ bob_part.

Definition after (runs : list script_widgets) (w : world) : world :=
  match session_runs sort_stable runs w with
  | Some w' => w'
  | None => w
  end.

Definition rated : world := after alice_part registered.

Definition closing : world := after evening first_run.

End Evening.

(** ** The sort that [sort_values] runs *)

Module Pandas.
Import Catalog Query.


(** One step of the insertion sort: the next row moves left past the rows
    with a strictly greater key. [sorted] is the part already in order,
    last row first. *)
Fixpoint move_left (x : MovieRecord) (sorted : DataFrame) : DataFrame :=
  match sorted with
  | [] => [x]
  | y :: rest =>
      if PrimFloat.ltb (rating x) (rating y) then y :: move_left x rest
      else x :: sorted
  end.

(** The insertion sort, in ascending order of rating. *)
Definition insertion_sort (a : DataFrame) : DataFrame :=
  rev (fold_left (fun sorted x => move_left x sorted) a []).

Definition sort_values_quicksort (df : DataFrame) : DataFrame :=
  let non_nans := List.filter (fun m => negb (is_nan (rating m))) df in
  let nans := List.filter (fun m => is_nan (rating m)) df in
  rev (insertion_sort (rev non_nans)) ++ nans.

End Pandas.

(** * Properties *)

(** ** SHA-256 on the test vectors of FIPS 180-4 *)

Example sha256_constants :
  length Sha256.primes = 64%nat
  /\ List.last Sha256.primes 0 = 311
  /\ hd 0 Sha256.K = 0x428a2f98
  /\ List.last Sha256.K 0 = 0xc67178f2
  /\ Sha256.ra Sha256.initial = 0x6a09e667
  /\ Sha256.rh Sha256.initial = 0x5be0cd19.
Proof. vm_compute. repeat split. Qed.

Example sha256_abc :
  Sha256.hexdigest (Text.str_encode "abc")
  = "ba7816bf8f01cfea414140de5dae2223b00361a396177a9cb410ff61f20015ad"%string.
Proof. vm_compute. reflexivity. Qed.

Example sha256_empty :
  Sha256.hexdigest (Text.str_encode "")
  = "e3b0c44298fc1c149afbf4c8996fb92427ae41e4649b934ca495991b7852b855"%string.
Proof. vm_compute. reflexivity. Qed.

Example sha256_two_blocks :
  Sha256.hexdigest
    (Text.str_encode "abcdbcdecdefdefgefghfghighijhijkijkljklmklmnlmnomnopnopq")
  = "248d6a61d20638b8e5c026930c3e6039a33ce45964ff2167f6ecedd419db06c1"%string.
Proof. vm_compute. reflexivity. Qed.

(** ** The order of binary64 values *)

Module FloatOrder.

Lemma SFleb_trans (a b c : spec_float) :
  SFleb a b = true -> SFleb b c = true -> SFleb a c = true.
Proof.
  unfold SFleb.
  destruct a as [sa|sa| |sa ma ea], b as [sb|sb| |sb mb eb], c as [sc|sc| |sc mc ec];
    simpl; try destruct sa; try destruct sb; try destruct sc; simpl;
    try congruence; try reflexivity.
  all: change (PosDef.Pos.compare_cont Eq) with Pos.compare.
  all: destruct (Z.compare_spec ea eb), (Z.compare_spec eb ec), (Z.compare_spec ea ec);
       try lia; try congruence; try reflexivity; subst.
  all: destruct (Pos.compare_spec ma mb), (Pos.compare_spec mb mc), (Pos.compare_spec ma mc);
       simpl; try lia; try congruence; try reflexivity.
Qed.

Lemma SFleb_total (a b : spec_float) :
  a <> S754_nan -> b <> S754_nan -> SFleb a b = true \/ SFleb b a = true.
Proof.
  unfold SFleb. intros Ha Hb.
  destruct a as [sa|sa| |sa ma ea], b as [sb|sb| |sb mb eb];
    simpl; try destruct sa; try destruct sb; simpl; try congruence; auto.
  all: change (PosDef.Pos.compare_cont Eq) with Pos.compare.
  all: rewrite (Z.compare_antisym ea eb), (Pos.compare_antisym ma mb).
  all: destruct (ea ?= eb)%Z, (ma ?= mb)%positive; simpl; auto.
Qed.

Lemma SFleb_not_nan (a b : spec_float) :
  SFleb a b = true -> a <> S754_nan /\ b <> S754_nan.
Proof.
  unfold SFleb. destruct a, b; simpl; intros H; split; congruence.
Qed.

Lemma SFeqb_refl (a : spec_float) : a <> S754_nan -> SFeqb a a = true.
Proof.
  unfold SFeqb. destruct a as [s|s| |s m e]; simpl; try congruence;
    try (destruct s; reflexivity).
  intros _. change (PosDef.Pos.compare_cont Eq) with Pos.compare.
  destruct s; rewrite Z.compare_refl, Pos.compare_refl; reflexivity.
Qed.

Lemma is_nan_false (x : float) : is_nan x = false <-> Prim2SF x <> S754_nan.
Proof.
  unfold is_nan. rewrite FloatAxioms.eqb_spec. split.
  - intros H E. rewrite E in H. discriminate H.
  - intros H. rewrite (SFeqb_refl _ H). reflexivity.
Qed.

Lemma leb_trans (x y z : float) :
  PrimFloat.leb x y = true -> PrimFloat.leb y z = true -> PrimFloat.leb x z = true.
Proof. rewrite !FloatAxioms.leb_spec. apply SFleb_trans. Qed.

Lemma leb_total (x y : float) :
  is_nan x = false -> is_nan y = false ->
  PrimFloat.leb x y = true \/ PrimFloat.leb y x = true.
Proof. rewrite !FloatAxioms.leb_spec, !is_nan_false. apply SFleb_total. Qed.

Lemma leb_not_nan (x y : float) :
  PrimFloat.leb x y = true -> is_nan x = false /\ is_nan y = false.
Proof. rewrite FloatAxioms.leb_spec, !is_nan_false. apply SFleb_not_nan. Qed.





End FloatOrder.

(** ** Sorted lists *)

Module SortFacts.
Import Catalog Query.

Section Sorted.
Context {A : Type} (R : A -> A -> Prop).

Lemma sorted_app_inv (l1 l2 : list A) :
  StronglySorted R (l1 ++ l2) ->
  StronglySorted R l1 /\ StronglySorted R l2
  /\ forall a b, In a l1 -> In b l2 -> R a b.
Proof.
  induction l1 as [|x l1 IH]; simpl; intros H.
  - split; [constructor|]. split; [exact H|]. intros a b [].
  - apply StronglySorted_inv in H as [Hs Hx].
    destruct (IH Hs) as (H1 & H2 & H12).
    apply Forall_app in Hx as [Hx1 Hx2].
    split; [constructor; assumption|]. split; [assumption|].
    intros a b [<-|Ha] Hb.
    + rewrite Forall_forall in Hx2. apply Hx2, list_elem_of_In, Hb.
    + apply H12; assumption.
Qed.

(** A list has at most one sorted arrangement when no two distinct elements
    of it are equivalent for the order. *)
Lemma sorted_perm_unique (l1 l2 : list A) :
  StronglySorted R l1 -> StronglySorted R l2 -> Permutation l1 l2 ->
  (forall a b, In a l1 -> In b l1 -> R a b -> R b a -> a = b) ->
  l1 = l2.
Proof.
  revert l2. induction l1 as [|a l1 IH]; intros l2 H1 H2 HP Hanti.
  - apply Permutation_nil in HP. congruence.
  - destruct l2 as [|b l2].
    { apply Permutation_sym, Permutation_nil in HP. discriminate. }
    apply StronglySorted_inv in H1 as [H1 Ha].
    apply StronglySorted_inv in H2 as [H2 Hb].
    rewrite Forall_forall in Ha, Hb.
    assert (a = b) as ->.
    { assert (In a (b :: l2)) as [E|Hin]
        by (apply (Permutation_in _ HP); left; reflexivity); [congruence|].
      assert (In b (a :: l1)) as [E|Hin']
        by (apply (Permutation_in _ (Permutation_sym HP)); left; reflexivity);
        [congruence|].
      apply Hanti.
      - left; reflexivity.
      - right; exact Hin'.
      - apply Ha, list_elem_of_In, Hin'.
      - apply Hb, list_elem_of_In, Hin. }
    f_equal. apply Permutation_cons_inv in HP.
    apply IH; try assumption.
    intros x y Hx Hy. apply Hanti; right; assumption.
Qed.

End Sorted.

(** *** The two sorts of the model meet the contract *)

Lemma insert_desc_perm (m : MovieRecord) (df : DataFrame) :
  Permutation (insert_desc m df) (m :: df).
Proof.
  induction df as [|x df IH]; simpl.
  - reflexivity.
  - destruct (float_ge (rating m) (rating x)).
    + reflexivity.
    + rewrite IH. apply perm_swap.
Qed.

Lemma insert_desc_sorted (m : MovieRecord) (df : DataFrame) :
  is_nan (rating m) = false -> no_nan df ->
  StronglySorted rating_ge df -> StronglySorted rating_ge (insert_desc m df).
Proof.
  intros Hm Hdf Hs. induction Hs as [|x df Hs IH Hx]; simpl.
  - repeat constructor.
  - apply Forall_cons in Hdf as [Hxn Hdf].
    destruct (float_ge (rating m) (rating x)) eqn:E.
    + constructor; [constructor; assumption|].
      constructor; [exact E|].
      rewrite Forall_forall in Hx |- *. intros y Hy.
      unfold rating_ge, float_ge in *.
      apply (FloatOrder.leb_trans _ (rating x)); [apply Hx, Hy | exact E].
    + constructor; [apply IH, Hdf|].
      assert (rating_ge x m) as Hxm.
      { unfold rating_ge, float_ge in *.
        destruct (FloatOrder.leb_total (rating x) (rating m) Hxn Hm) as [H|H];
          [congruence | exact H]. }
      rewrite Forall_forall. intros y Hy.
      apply list_elem_of_In, (Permutation_in _ (insert_desc_perm m df)) in Hy.
      destruct Hy as [<-|Hy]; [exact Hxm|].
      rewrite Forall_forall in Hx. apply Hx, list_elem_of_In, Hy.
Qed.

Lemma sort_stable_perm (df : DataFrame) : Permutation (sort_stable df) df.
Proof.
  induction df as [|m df IH]; simpl; [reflexivity|].
  rewrite insert_desc_perm. constructor. exact IH.
Qed.

Lemma no_nan_perm (df df' : DataFrame) :
  Permutation df df' -> no_nan df -> no_nan df'.
Proof. unfold no_nan. intros HP. rewrite HP. trivial. Qed.

Lemma sort_stable_contract : sort_contract sort_stable.
Proof.
  intros df Hn. split; [apply sort_stable_perm|].
  induction df as [|m df IH]; simpl; [constructor|].
  apply Forall_cons in Hn as [Hm Hn].
  apply insert_desc_sorted; [exact Hm| |apply IH, Hn].
  apply (no_nan_perm df); [symmetry; apply sort_stable_perm | exact Hn].
Qed.

Lemma sort_reversing_contract : sort_contract sort_reversing.
Proof.
  intros df Hn. unfold sort_reversing.
  assert (no_nan (rev df)) as Hr
    by (apply (no_nan_perm df); [apply Permutation_rev | exact Hn]).
  destruct (sort_stable_contract (rev df) Hr) as [HP HS].
  split; [|exact HS].
  rewrite HP. symmetry. apply Permutation_rev.
Qed.

(** *** Positions *)

Lemma before_cons (x : MovieRecord) (df : DataFrame) (a b : MovieRecord) :
  before (x :: df) a b <-> (x = a /\ In b df) \/ before df a b.
Proof.
  unfold before. split.
  - intros (i & j & Hlt & Hi & Hj). destruct j as [|j]; [lia|].
    simpl in Hj. destruct i as [|i]; simpl in Hi.
    + left. split; [congruence|].
      apply list_elem_of_In, list_elem_of_lookup. exists j. exact Hj.
    + right. exists i, j. split; [lia|]. split; assumption.
  - intros [[-> Hb]|(i & j & Hlt & Hi & Hj)].
    + apply list_elem_of_In, list_elem_of_lookup in Hb as [j Hj].
      exists 0%nat, (S j). split; [lia|]. split; [reflexivity | exact Hj].
    + exists (S i), (S j). split; [lia|]. split; assumption.
Qed.


(** A mask and a cut at the front keep the rows in their order. *)
Lemma before_filter (f : MovieRecord -> bool) (df : DataFrame) (a b : MovieRecord) :
  before (List.filter f df) a b -> before df a b.
Proof.
  induction df as [|x df IH]; simpl; [trivial|].
  intros H. apply before_cons. destruct (f x).
  - apply before_cons in H as [[-> Hb]|H]; [|right; apply IH, H].
    left. split; [reflexivity|]. apply filter_In in Hb. tauto.
  - right. apply IH, H.
Qed.

Lemma before_firstn (n : nat) (df : DataFrame) (a b : MovieRecord) :
  before (firstn n df) a b -> before df a b.
Proof.
  intros (i & j & Hlt & Hi & Hj). exists i, j. split; [exact Hlt|].
  apply lookup_take_Some in Hi as [Hi _].
  apply lookup_take_Some in Hj as [Hj _]. split; assumption.
Qed.



(** *** Consequences of the contract *)

Section Contract.
Variable sort_values : DataFrame -> DataFrame.
Hypothesis contract : sort_contract sort_values.

(** A frame already in strictly descending order is left as it is. *)
Lemma sort_values_fixed (df : DataFrame) :
  no_nan df -> StronglySorted rating_ge df ->
  (forall a b, In a df -> In b df -> rating_ge a b -> rating_ge b a -> a = b) ->
  sort_values df = df.
Proof.
  intros Hn Hs Hanti. destruct (contract df Hn) as [HP HS].
  symmetry. apply (sorted_perm_unique rating_ge); try assumption.
  symmetry; exact HP.
Qed.

Lemma sort_values_length (df : DataFrame) :
  no_nan df -> length (sort_values df) = length df.
Proof. intros Hn. apply Permutation_length, contract, Hn. Qed.

Lemma sort_values_In (df : DataFrame) (m : MovieRecord) :
  no_nan df -> In m (sort_values df) <-> In m df.
Proof.
  intros Hn. destruct (contract df Hn) as [HP _]. split.
  - apply Permutation_in, HP.
  - apply Permutation_in. symmetry. exact HP.
Qed.

End Contract.

End SortFacts.

(** ** Patterns without special characters search for a substring *)

Module TextFacts.
Import Text.

Lemma plain_cons (c : ascii) (pat : string) :
  plain (String c pat) <-> re_special c = false /\ plain pat.
Proof. unfold plain. simpl. rewrite Forall_cons. reflexivity. Qed.

Lemma special_dot (c : ascii) : re_special c = false -> Ascii.eqb c "."%char = false.
Proof.
  unfold re_special. simpl. intros H.
  apply orb_false_elim in H as [H _]. exact H.
Qed.

Lemma re_compile_plain (pat : string) :
  plain pat -> re_compile pat = Some (literals pat).
Proof.
  induction pat as [|c pat IH]; simpl; intros H; [reflexivity|].
  apply plain_cons in H as [Hc Hp].
  rewrite (IH Hp), (special_dot c Hc), Hc. reflexivity.
Qed.

Lemma match_here_literals (sub s : string) :
  match_here (literals sub) s = true
  <-> exists post : string, str_lower s = (str_lower sub ++ post)%string.
Proof.
  revert s. induction sub as [|l sub IH]; intros s; simpl.
  - split; [intros _; exists (str_lower s); reflexivity | reflexivity].
  - destruct s as [|c s]; simpl.
    + split; [discriminate | intros [post H]; discriminate H].
    + rewrite andb_true_iff, IH. split.
      * intros [Hc [post Hs]]. exists post.
        apply Ascii.eqb_eq in Hc. rewrite Hc, Hs. reflexivity.
      * intros [post H]. injection H as Hc Hs. split.
        -- apply Ascii.eqb_eq. congruence.
        -- exists post. exact Hs.
Qed.

(** The search the code runs for a plain pattern is the containment of the
    specification. *)
Lemma re_search_literals (sub s : string) :
  re_search (literals sub) s = true <-> contains_ci s sub.
Proof.
  unfold contains_ci. induction s as [|c s IH]; simpl.
  - rewrite orb_false_r, match_here_literals. simpl. split.
    + intros [post H]. exists EmptyString, post. exact H.
    + intros (pre & post & H). destruct pre; [|discriminate H].
      exists post. exact H.
  - rewrite orb_true_iff, IH, match_here_literals. simpl. split.
    + intros [[post H]|(pre & post & H)].
      * exists EmptyString, post. exact H.
      * exists (String (lower c) pre), post. simpl. rewrite H. reflexivity.
    + intros (pre & post & H). destruct pre as [|x pre]; simpl in H.
      * left. exists post. exact H.
      * right. injection H as _ H. exists pre, post. exact H.
Qed.

End TextFacts.

(** ** The recommendation query *)

Module QueryFacts.
Import Catalog Query SortFacts.

Lemma mask_true (re : list Text.re_item) (m : float) (yr : Z * Z) (r : MovieRecord) :
  mask re m yr r = true
  <-> Text.re_search re (genre r) = true
      /\ float_ge (rating r) m = true
      /\ fst yr <= year r <= snd yr.
Proof.
  unfold mask. rewrite !andb_true_iff, !Z.leb_le. tauto.
Qed.

(** On a plain genre string the mask of the code is the predicate of the
    specification. *)
Lemma mask_satisfies (g : string) (m : float) (yr : Z * Z) (r : MovieRecord) :
  mask (Text.literals g) m yr r = true <-> satisfies g m yr r.
Proof.
  rewrite mask_true. unfold satisfies.
  rewrite TextFacts.re_search_literals. reflexivity.
Qed.

(** A NaN rating never passes [rating >= min_rating]. *)
Lemma filtered_no_nan (movies : DataFrame) (g : string) (m : float) (yr : Z * Z)
    (filtered : DataFrame) :
  filtered_movies movies g m yr = Some filtered -> no_nan filtered.
Proof.
  unfold filtered_movies. destruct (Text.re_compile g) as [re|]; [|discriminate].
  intros [= <-]. unfold no_nan. rewrite Forall_forall. intros r Hr.
  apply list_elem_of_In, filter_In in Hr as [_ Hr].
  apply mask_true in Hr as (_ & Hr & _).
  unfold float_ge in Hr. apply FloatOrder.leb_not_nan in Hr. tauto.
Qed.

Lemma filtered_plain (movies : DataFrame) (g : string) (m : float) (yr : Z * Z) :
  Text.plain g ->
  filtered_movies movies g m yr
  = Some (List.filter (mask (Text.literals g) m yr) movies).
Proof.
  intros Hg. unfold filtered_movies.
  rewrite (TextFacts.re_compile_plain g Hg). reflexivity.
Qed.

(** Case analysis on the rows of a frame that is written out. *)
Ltac rows H := simpl in H; repeat (destruct H as [<-|H]); try contradiction.

(** The side conditions of [sort_values_fixed] on a frame that is written
    out in strictly descending order. *)
Ltac strictly_descending :=
  match goal with
  | |- no_nan _ => repeat constructor
  | |- StronglySorted rating_ge _ => repeat constructor
  | |- forall a b, In a _ -> In b _ -> _ =>
      let a := fresh "a" in let b := fresh "b" in
      let Ha := fresh "Ha" in let Hb := fresh "Hb" in
      let Hab := fresh "Hab" in let Hba := fresh "Hba" in
      intros a b Ha Hb Hab Hba; rows Ha; rows Hb; try reflexivity;
      first [ vm_compute in Hab; discriminate Hab
            | vm_compute in Hba; discriminate Hba ]
  end.

Section Recommendations.
Variable sort_values : DataFrame -> DataFrame.
Hypothesis contract : sort_contract sort_values.

(** C1. On the catalog of [load_data], the query for genre "Crime", minimum
    rating 8.5 and years 1970 to 2000 returns The Godfather (9.2), Pulp
    Fiction (8.9) and Goodfellas (8.7), in this order, whatever sort meets
    the contract. *)
Theorem crime_recommendations :
  get_recommendations sort_values load_data "Crime" 8.5%float (1970, 2000)
  = Some [godfather; pulp_fiction; goodfellas].
Proof.
  unfold get_recommendations.
  assert (filtered_movies load_data "Crime" 8.5%float (1970, 2000)
          = Some [godfather; pulp_fiction; goodfellas]) as ->
    by (vm_compute; reflexivity).
  rewrite (sort_values_fixed sort_values contract); [reflexivity|..];
    strictly_descending.
Qed.

(** C2, amended. For a genre string with no special character of [re]:
    the rows that pass the filter are the rows of the catalog that satisfy
    the predicate (genre contains the string whatever the case, rating at
    least the minimum, year in the closed range); every row of the result
    passes the filter; and when at most five rows pass it, each of them is
    in the result. *)
Theorem recommendations_match_predicate
    (movies : DataFrame) (g : string) (m : float) (yr : Z * Z) :
  Text.plain g ->
  exists filtered res : DataFrame,
    filtered_movies movies g m yr = Some filtered
    /\ get_recommendations sort_values movies g m yr = Some res
    /\ (forall r, In r filtered <-> In r movies /\ satisfies g m yr r)
    /\ (forall r, In r res -> In r filtered)
    /\ ((length filtered <= 5)%nat -> forall r, In r filtered -> In r res).
Proof.
  intros Hg.
  pose proof (filtered_plain movies g m yr Hg) as Hf.
  pose proof (filtered_no_nan _ _ _ _ _ Hf) as Hn.
  set (filtered := List.filter (mask (Text.literals g) m yr) movies) in *.
  exists filtered, (firstn 5 (sort_values filtered)).
  split; [exact Hf|]. split; [unfold get_recommendations; rewrite Hf; reflexivity|].
  split; [|split].
  - intros r. unfold filtered. rewrite filter_In, mask_satisfies. reflexivity.
  - intros r Hr. apply (sort_values_In sort_values contract filtered r Hn).
    rewrite <- (firstn_skipn 5 (sort_values filtered)).
    apply in_or_app. left. exact Hr.
  - intros Hlen r Hr. rewrite firstn_all2.
    + apply (sort_values_In sort_values contract filtered r Hn), Hr.
    + rewrite (sort_values_length sort_values contract filtered Hn). exact Hlen.
Qed.

(** From the contract alone the result is in descending order of rating:
    every row is rated at least as high as the rows after it. Rows of equal
    rating stand in the order of the catalog when the sort is stable. *)
Theorem recommendations_descending
    (movies : DataFrame) (g : string) (m : float) (yr : Z * Z) (res : DataFrame) :
  get_recommendations sort_values movies g m yr = Some res ->
  StronglySorted rating_ge res
  /\ (stable sort_values -> ties_in_catalog_order movies res).
Proof.
  unfold get_recommendations.
  destruct (filtered_movies movies g m yr) as [filtered|] eqn:Hf; [|discriminate].
  intros [= <-].
  pose proof (filtered_no_nan _ _ _ _ _ Hf) as Hn.
  split.
  - destruct (contract filtered Hn) as [_ HS].
    rewrite <- (firstn_skipn 5 (sort_values filtered)) in HS.
    apply sorted_app_inv in HS. tauto.
  - intros Hst a b Hab E.
    apply before_firstn in Hab. apply (Hst filtered Hn a b) in Hab; [|exact E].
    unfold filtered_movies in Hf.
    destruct (Text.re_compile g) as [re|]; [|discriminate].
    injection Hf as <-. apply before_filter in Hab. exact Hab.
Qed.

(** C4. When more than five rows of the catalog pass the filter, the
    result has exactly five rows; they are five of the rows that pass the
    filter, and each is rated at least as high as every row that passes the
    filter and is left out. *)
Theorem recommendations_top_five
    (movies : DataFrame) (g : string) (m : float) (yr : Z * Z) (filtered : DataFrame) :
  filtered_movies movies g m yr = Some filtered ->
  (5 < length filtered)%nat ->
  exists res rest : DataFrame,
    get_recommendations sort_values movies g m yr = Some res
    /\ length res = 5%nat
    /\ Permutation (res ++ rest) filtered
    /\ forall a b, In a res -> In b rest -> rating_ge a b.
Proof.
  intros Hf Hlen.
  pose proof (filtered_no_nan _ _ _ _ _ Hf) as Hn.
  destruct (contract filtered Hn) as [HP HS].
  exists (firstn 5 (sort_values filtered)), (skipn 5 (sort_values filtered)).
  split; [unfold get_recommendations; rewrite Hf; reflexivity|].
  split; [|split].
  - apply firstn_length_le.
    rewrite (sort_values_length sort_values contract filtered Hn). lia.
  - rewrite firstn_skipn. exact HP.
  - rewrite <- (firstn_skipn 5 (sort_values filtered)) in HS.
    apply sorted_app_inv in HS. tauto.
Qed.

End Recommendations.

(** *** The theorems at the stable sort, on the catalog *)

Lemma crime_recommendations_witness :
  get_recommendations sort_stable load_data "Crime" 8.5%float (1970, 2000)
  = Some [godfather; pulp_fiction; goodfellas].
Proof. exact (crime_recommendations sort_stable sort_stable_contract). Defined.

Lemma plain_crime : Text.plain "crime".
Proof. repeat constructor. Defined.

Lemma recommendations_match_predicate_witness :
  exists filtered res : DataFrame,
    filtered_movies load_data "crime" 8.5%float (1970, 2000) = Some filtered
    /\ get_recommendations sort_stable load_data "crime" 8.5%float (1970, 2000) = Some res
    /\ (forall r, In r filtered
                  <-> In r load_data /\ satisfies "crime" 8.5%float (1970, 2000) r)
    /\ (forall r, In r res -> In r filtered)
    /\ ((length filtered <= 5)%nat -> forall r, In r filtered -> In r res).
Proof.
  exact (recommendations_match_predicate sort_stable sort_stable_contract
           load_data "crime" 8.5%float (1970, 2000) plain_crime).
Defined.

Lemma recommendations_descending_witness :
  StronglySorted rating_ge [the_matrix; star_wars_v]
  /\ (stable sort_stable -> ties_in_catalog_order load_data [the_matrix; star_wars_v]).
Proof.
  apply (recommendations_descending sort_stable sort_stable_contract
           load_data "Sci-Fi" 8.5%float (1970, 2000)).
  vm_compute. reflexivity.
Defined.

Lemma recommendations_top_five_witness :
  exists res rest : DataFrame,
    get_recommendations sort_stable load_data "r" 0%float (1972, 2010) = Some res
    /\ length res = 5%nat
    /\ Permutation (res ++ rest)
         [shawshank; godfather; pulp_fiction; forrest_gump; goodfellas;
          silence_of_the_lambs]
    /\ forall a b, In a res -> In b rest -> rating_ge a b.
Proof.
  apply (recommendations_top_five sort_stable sort_stable_contract
           load_data "r" 0%float (1972, 2010)).
  - vm_compute. reflexivity.
  - simpl. lia.
Defined.

(** *** The explorer page *)

(** X1. The explorer shows every row of the catalog whose genre is the selected
    one (any genre for "All"), whose year is in the closed range and whose
    rating is at least the minimum; it shows them in catalog order. *)
Theorem explorer_rows
    (movies : DataFrame) (selected_genre : string) (yr : Z * Z) (m : float) :
  (forall r, In r (explorer movies selected_genre yr m)
             <-> In r movies
                 /\ (selected_genre = "All"%string \/ genre r = selected_genre)
                 /\ fst yr <= year r <= snd yr
                 /\ float_ge (rating r) m = true)
  /\ (forall a b, before (explorer movies selected_genre yr m) a b -> before movies a b).
Proof.
  unfold explorer. split.
  - intros r. rewrite filter_In, !andb_true_iff, !Z.leb_le.
    destruct (String.eqb selected_genre "All") eqn:E.
    + apply String.eqb_eq in E. tauto.
    + apply String.eqb_neq in E. rewrite filter_In, String.eqb_eq. tauto.
  - intros a b H. apply before_filter in H.
    destruct (String.eqb selected_genre "All"); [exact H|].
    apply before_filter in H. exact H.
Qed.

(** *** Where the claims as stated fail *)

(** C2 as stated fails. Six rows of the catalog satisfy the predicate for
    the genre string "r", minimum rating 0 and years 1972 to 2010; The
    Silence of the Lambs is one of them, and no sort that meets the contract
    puts it in the result, which [head(5)] cuts after five rows. *)
Lemma truncation_drops_a_match :
  exists r : MovieRecord,
    In r load_data
    /\ satisfies "r" 0%float (1972, 2010) r
    /\ forall sort_values, sort_contract sort_values ->
         exists res : DataFrame,
           get_recommendations sort_values load_data "r" 0%float (1972, 2010) = Some res
           /\ ~ In r res.
Proof.
  exists silence_of_the_lambs. split; [simpl; tauto|]. split.
  { apply mask_satisfies. vm_compute. reflexivity. }
  intros sort_values contract.
  exists [shawshank; godfather; pulp_fiction; forrest_gump; goodfellas].
  split.
  - unfold get_recommendations.
    assert (filtered_movies load_data "r" 0%float (1972, 2010)
            = Some [shawshank; godfather; pulp_fiction; forrest_gump; goodfellas;
                    silence_of_the_lambs]) as ->
      by (vm_compute; reflexivity).
    rewrite (sort_values_fixed sort_values contract); [reflexivity|..];
      strictly_descending.
  - intros H. simpl in H.
    repeat (destruct H as [H|H]; [discriminate H|]). exact H.
Qed.

(** A genre string with a special character is not searched for as a
    substring: the dot matches any character, so "." selects every genre,
    and none contains a dot. *)
Example dot_is_a_wildcard :
  filtered_movies load_data "." 9.25%float (1972, 2010) = Some [shawshank]
  /\ ~ Text.contains_ci (genre shawshank) ".".
Proof.
  split; [vm_compute; reflexivity|].
  rewrite <- TextFacts.re_search_literals. vm_compute. discriminate.
Qed.

Lemma catalog_position (i : nat) (r : MovieRecord) :
  load_data !! i = Some r ->
  (title <$> load_data) !! i = Some (title r).
Proof. intros H. rewrite list_lookup_fmap, H. reflexivity. Qed.

(** The contract alone does not fix the order of ties: [sort_reversing]
    meets it and returns The Matrix and Star Wars: Episode V, both rated
    8.7, in the order opposite to the catalog's. The order of ties is
    therefore proved for the sort that pandas runs, in [PandasFacts], and
    not from the contract. *)
Lemma contract_leaves_ties_open :
  sort_contract sort_reversing
  /\ exists res : DataFrame,
       get_recommendations sort_reversing load_data "Sci-Fi" 8.5%float (1970, 2000)
       = Some res
       /\ ~ ties_in_catalog_order load_data res.
Proof.
  split; [apply sort_reversing_contract|].
  exists [star_wars_v; the_matrix]. split; [vm_compute; reflexivity|].
  intros H.
  destruct (H star_wars_v the_matrix) as (i' & j' & Hlt & Hi & Hj).
  { exists 0%nat, 1%nat. split; [lia|]. split; reflexivity. }
  { vm_compute. reflexivity. }
  apply catalog_position in Hi, Hj.
  assert (i' = 9%nat) as ->.
  { do 10 (destruct i' as [|i']; [first [reflexivity | discriminate Hi]|]).
    discriminate Hi. }
  do 10 (destruct j' as [|j']; [first [lia | discriminate Hj]|]).
  discriminate Hj.
Qed.

End QueryFacts.

(** ** Passwords, registration and login *)

Module AuthFacts.
Import Auth Scenario.

(** C5. [make_hashes] is a function of the password alone, and a password
    verifies against its own digest. *)
Theorem hash_then_verify :
  (forall p q : string, p = q -> make_hashes p = make_hashes q)
  /\ (forall p : string, check_hashes p (make_hashes p) = true).
Proof.
  split.
  - intros p q ->. reflexivity.
  - intros p. unfold check_hashes. apply String.eqb_refl.
Qed.

Lemma hash_then_verify_witness :
  make_hashes "abc" = make_hashes "abc"
  /\ check_hashes "abc" (make_hashes "abc") = true.
Proof.
  split.
  - exact (proj1 hash_then_verify "abc" "abc" eq_refl).
  - exact (proj2 hash_then_verify "abc").
Defined.

Lemma hex_length (bs : list Z) : String.length (Sha256.hex bs) = (2 * length bs)%nat.
Proof. induction bs as [|b bs IH]; simpl; [reflexivity|]. rewrite IH. lia. Qed.

(** The digest is a string of 64 characters whatever the password. *)
Lemma make_hashes_length (p : string) : String.length (make_hashes p) = 64%nat.
Proof.
  unfold make_hashes, Sha256.hexdigest. rewrite hex_length. reflexivity.
Qed.

(** C6. A run of the login page with the Register button pressed.
    When the new name is already a key of the store, the run writes
    DuplicateUser and changes neither the session state nor the files.
    Otherwise the digest of the new password is stored under the name, the
    whole store is written to [users.pkl], from where [load_users] reads it
    back, and the run reports success. *)
Theorem register_outcomes (i : login_widgets) (w : world) :
  w_submit i = false -> w_register i = true ->
  (is_Some (users (session w) !! w_new_username i) ->
     login_page i w
     = (World (session w) (files w) (page w ++ [DuplicateUser]), Finished))
  /\ (users (session w) !! w_new_username i = None ->
      exists w' : world,
        login_page i w = (w', Finished)
        /\ users (session w')
           = <[w_new_username i := make_hashes (w_new_password i)]> (users (session w))
        /\ authenticated (session w') = authenticated (session w)
        /\ username (session w') = username (session w)
        /\ files w' = <["users.pkl" := Pickled (users (session w'))]> (files w)
        /\ load_users (files w') = inr (users (session w'))
        /\ page w' = page w ++ [st_success "Registration successful! Please login."]).
Proof.
  intros Hs Hr. unfold login_page, login_form, register_form. rewrite Hs, Hr.
  split.
  - intros [d Hd]. rewrite Hd. reflexivity.
  - intros Hn. rewrite Hn. eexists. split; [reflexivity|]. simpl.
    repeat split.
    unfold load_users, open_rb, save_users. rewrite lookup_insert_eq. reflexivity.
Qed.

(** C7. A run of the login page with the Login button pressed.
    An unknown name gives UnknownUser; a known name whose stored digest the
    password does not verify against gives BadPassword; in both cases
    nothing else changes. Otherwise the session becomes authenticated under
    that name and the run ends with [st.rerun()]. *)
Theorem login_outcomes (i : login_widgets) (w : world) :
  w_submit i = true -> w_register i = false ->
  (users (session w) !! w_username i = None ->
     login_page i w
     = (World (session w) (files w) (page w ++ [UnknownUser]), Finished))
  /\ (forall digest : string,
        users (session w) !! w_username i = Some digest ->
        check_hashes (w_password i) digest = false ->
        login_page i w
        = (World (session w) (files w) (page w ++ [BadPassword]), Finished))
  /\ (forall digest : string,
        users (session w) !! w_username i = Some digest ->
        check_hashes (w_password i) digest = true ->
        exists w' : world,
          login_page i w = (w', Rerun)
          /\ authenticated (session w') = true
          /\ username (session w') = Some (w_username i)
          /\ users (session w') = users (session w)
          /\ files w' = files w
          /\ page w' = page w ++ [st_success "Login successful!"]).
Proof.
  intros Hs Hr. unfold login_page, login_form, register_form. rewrite Hs.
  split; [|split].
  - intros Hn. rewrite Hn. simpl. rewrite Hr. reflexivity.
  - intros d Hd Hc. rewrite Hd, Hc. simpl. rewrite Hr. reflexivity.
  - intros d Hd Hc. rewrite Hd, Hc. eexists. split; [reflexivity|].
    simpl. repeat split.
Qed.

(** C8. When there is no file [users.pkl], [load_users] returns the empty
    dictionary and raises no exception. *)
Theorem load_users_missing_file (fs : file_system) :
  fs !! "users.pkl" = None -> load_users fs = inr ∅.
Proof.
  intros H. unfold load_users, open_rb. rewrite H. reflexivity.
Qed.

(** The [except] clause catches nothing else: a file that does not unpickle
    makes [load_users] raise. *)
Lemma load_users_unreadable_file (fs : file_system) :
  fs !! "users.pkl" = Some Unreadable -> load_users fs = inl UnpicklingError.
Proof.
  intros H. unfold load_users, open_rb. rewrite H. reflexivity.
Qed.

(** X2. Registering a new name and then logging in with the same name and
    password succeeds: the second run ends with [st.rerun()] in a session
    authenticated under that name. *)
Theorem register_then_login_succeeds (w : world) (name password : string) :
  users (session w) !! name = None ->
  let w1 := fst (login_page (LoginWidgets "" "" false name password true) w) in
  exists w2 : world,
    login_page (LoginWidgets name password true "" "" false) w1 = (w2, Rerun)
    /\ authenticated (session w2) = true
    /\ username (session w2) = Some name.
Proof.
  intros Hn w1. subst w1.
  unfold login_page, login_form, register_form. simpl. rewrite Hn. simpl.
  rewrite lookup_insert_eq. unfold check_hashes. rewrite String.eqb_refl.
  eexists. split; [reflexivity|]. split; reflexivity.
Qed.

(** *** The theorems on a first run in an empty directory *)

Lemma load_users_missing_file_witness : load_users (∅ : file_system) = inr ∅.
Proof. apply (load_users_missing_file ∅). reflexivity. Defined.

Lemma register_outcomes_witness :
  (is_Some (users (session registered) !! "alice") ->
     login_page alice_registers registered
     = (World (session registered) (files registered)
              (page registered ++ [DuplicateUser]), Finished))
  /\ (users (session registered) !! "alice" = None ->
      exists w' : world,
        login_page alice_registers registered = (w', Finished)
        /\ users (session w')
           = <["alice" := make_hashes "correct horse"]> (users (session registered))
        /\ authenticated (session w') = authenticated (session registered)
        /\ username (session w') = username (session registered)
        /\ files w' = <["users.pkl" := Pickled (users (session w'))]> (files registered)
        /\ load_users (files w') = inr (users (session w'))
        /\ page w' = page registered ++ [st_success "Registration successful! Please login."]).
Proof.
  apply (register_outcomes alice_registers registered); reflexivity.
Defined.

Lemma login_outcomes_witness :
  (users (session registered) !! "alice" = None ->
     login_page alice_logs_in registered
     = (World (session registered) (files registered)
              (page registered ++ [UnknownUser]), Finished))
  /\ (forall digest : string,
        users (session registered) !! "alice" = Some digest ->
        check_hashes "correct horse" digest = false ->
        login_page alice_logs_in registered
        = (World (session registered) (files registered)
                 (page registered ++ [BadPassword]), Finished))
  /\ (forall digest : string,
        users (session registered) !! "alice" = Some digest ->
        check_hashes "correct horse" digest = true ->
        exists w' : world,
          login_page alice_logs_in registered = (w', Rerun)
          /\ authenticated (session w') = true
          /\ username (session w') = Some "alice"
          /\ users (session w') = users (session registered)
          /\ files w' = files registered
          /\ page w' = page registered ++ [st_success "Login successful!"]).
Proof.
  apply (login_outcomes alice_logs_in registered); reflexivity.
Defined.

Lemma register_then_login_succeeds_witness :
  exists w2 : world,
    login_page (LoginWidgets "alice" "correct horse" true "" "" false)
      (fst (login_page (LoginWidgets "" "" false "alice" "correct horse" true) first_run))
    = (w2, Rerun)
    /\ authenticated (session w2) = true
    /\ username (session w2) = Some "alice"%string.
Proof.
  apply (register_then_login_succeeds first_run "alice" "correct horse").
  reflexivity.
Defined.

(** Register, then log in with the same credentials: the run ends with
    [st.rerun()] in an authenticated session. A mistyped password, an
    unregistered name and a second registration of the same name give the
    three errors, and the stored digest stays the one of the first
    registration. *)
Example register_then_login :
  snd (login_page alice_logs_in registered) = Rerun
  /\ authenticated (session signed_in) = true
  /\ username (session signed_in) = Some "alice"%string.
Proof. vm_compute. repeat split. Qed.

Example login_mistyped :
  login_page alice_mistypes registered = (say BadPassword registered, Finished).
Proof. vm_compute. reflexivity. Qed.

Example login_unregistered :
  login_page bob_logs_in registered = (say UnknownUser registered, Finished).
Proof. vm_compute. reflexivity. Qed.

Example register_twice :
  login_page alice_registers_again registered = (say DuplicateUser registered, Finished)
  /\ users (session registered) !! "alice"
     = Some "4104d36f8da2c254349f85836793ebe029e0c957063a34c91c2e9203187b5631"%string.
Proof. vm_compute. split; reflexivity. Qed.

(** A session that starts in an empty directory has no users. *)
Example new_session_empty_directory :
  new_session ∅ = inr (Session false None ∅ None).
Proof. reflexivity. Qed.

End AuthFacts.


(** ** The ledger of ratings *)

Module LedgerFacts.
Import Auth Ledger Scenario.

Lemma keys_setitem_present {V : Type} (k : string) (v : V) (d : dict V) :
  In k (keys d) -> keys (setitem k v d) = keys d.
Proof.
  induction d as [|[k' v'] d IH]; simpl; [contradiction|].
  intros H. destruct (String.eqb k' k) eqn:E; simpl; [reflexivity|].
  f_equal. apply IH. destruct H as [H|H]; [|exact H].
  apply String.eqb_neq in E. contradiction.
Qed.

Lemma keys_setitem_absent {V : Type} (k : string) (v : V) (d : dict V) :
  ~ In k (keys d) -> keys (setitem k v d) = keys d ++ [k].
Proof.
  induction d as [|[k' v'] d IH]; simpl; [reflexivity|].
  intros H. destruct (String.eqb k' k) eqn:E; simpl.
  - apply String.eqb_eq in E. tauto.
  - f_equal. apply IH. tauto.
Qed.

(** Assignment keeps the keys of a dictionary distinct. *)
Lemma setitem_NoDup {V : Type} (k : string) (v : V) (d : dict V) :
  NoDup (keys d) -> NoDup (keys (setitem k v d)).
Proof.
  intros H. destruct (in_dec string_dec k (keys d)) as [Hin|Hout].
  - rewrite keys_setitem_present; assumption.
  - rewrite keys_setitem_absent by assumption.
    apply NoDup_app. split; [exact H|]. split; [|apply NoDup_singleton].
    intros x Hx Hk. apply list_elem_of_In in Hx.
    apply list_elem_of_singleton in Hk. subst. contradiction.
Qed.

Lemma entries_for_absent (t : string) (d : dict rating_entry) :
  ~ In t (keys d) -> entries_for t d = [].
Proof.
  induction d as [|[k v] d IH]; simpl; [reflexivity|].
  intros H. destruct (String.eqb k t) eqn:E.
  - apply String.eqb_eq in E. tauto.
  - apply IH. tauto.
Qed.

(** After [d[t] = e] the dictionary holds one entry for [t], and it is
    [e]. *)
Lemma entries_for_setitem (t : string) (e : rating_entry) (d : dict rating_entry) :
  NoDup (keys d) -> entries_for t (setitem t e d) = [(t, e)].
Proof.
  induction d as [|[k v] d IH]; simpl; intros H.
  - rewrite String.eqb_refl. reflexivity.
  - apply NoDup_cons in H as [Hk H].
    destruct (String.eqb k t) eqn:E; simpl; rewrite E.
    + apply String.eqb_eq in E. subst k.
      rewrite (entries_for_absent t d); [reflexivity|].
      rewrite <- list_elem_of_In. exact Hk.
    + apply IH, H.
Qed.

Lemma getitem_setitem {V : Type} (k : string) (v : V) (d : dict V) :
  getitem k (setitem k v d) = Some v.
Proof.
  induction d as [|[k' v'] d IH]; simpl.
  - rewrite String.eqb_refl. reflexivity.
  - destruct (String.eqb k' k) eqn:E; simpl; rewrite E; [reflexivity | exact IH].
Qed.

(** What one run of the page does to the ledger. *)
Lemma ledger_your_ratings (i : rating_widgets) (w : world) :
  ledger (your_ratings i w)
  = if w_submit_rating i
    then setitem (selected_movie i) (Entry (w_rating i) (w_review i) (now i)) (ledger w)
    else ledger w.
Proof.
  unfold your_ratings, ledger. cbv zeta.
  destruct (w_submit_rating i), (user_ratings (session w)) as [d|]; simpl.
  - destruct (setitem _ _ d); reflexivity.
  - reflexivity.
  - destruct d; reflexivity.
  - reflexivity.
Qed.

Lemma visits_snoc (runs : list rating_widgets) (i : rating_widgets) (w : world) :
  visits (runs ++ [i]) w = your_ratings i (visits runs w).
Proof. unfold visits. rewrite fold_left_app. reflexivity. Qed.

(** The keys of the ledger stay distinct along every sequence of runs that
    starts without a ledger. *)
Lemma visits_NoDup (runs : list rating_widgets) (w : world) :
  user_ratings (session w) = None -> NoDup (keys (ledger (visits runs w))).
Proof.
  intros H. induction runs as [|i runs IH] using rev_ind.
  - unfold visits, ledger. simpl. rewrite H. constructor.
  - rewrite visits_snoc, ledger_your_ratings.
    destruct (w_submit_rating i); [apply setitem_NoDup, IH | exact IH].
Qed.

Lemma first_occurrences_In (x : string) (l : list string) :
  In x (first_occurrences l) <-> In x l.
Proof.
  induction l as [|a l IH]; simpl; [reflexivity|].
  rewrite filter_In, IH, negb_true_iff, String.eqb_neq.
  destruct (string_dec a x) as [->|Hne]; [tauto|].
  split; [tauto|]. intros [H|H]; [contradiction|]. right. split; congruence.
Qed.

Lemma first_occurrences_snoc_new (x : string) (l : list string) :
  ~ In x l -> first_occurrences (l ++ [x]) = first_occurrences l ++ [x].
Proof.
  induction l as [|a l IH]; simpl; [reflexivity|].
  intros H. f_equal. rewrite IH by tauto.
  rewrite List.filter_app. simpl.
  destruct (String.eqb x a) eqn:E; simpl; [|reflexivity].
  apply String.eqb_eq in E. subst. tauto.
Qed.

Lemma first_occurrences_snoc_seen (x : string) (l : list string) :
  In x l -> first_occurrences (l ++ [x]) = first_occurrences l.
Proof.
  induction l as [|a l IH]; simpl; [contradiction|].
  intros H. f_equal. destruct (in_dec string_dec x l) as [Hin|Hout].
  - rewrite (IH Hin). reflexivity.
  - destruct H as [->|H]; [|contradiction].
    rewrite (first_occurrences_snoc_new x l Hout), List.filter_app. simpl.
    rewrite String.eqb_refl. simpl. apply app_nil_r.
Qed.

Lemma listed_keys (w : world) : listed w = keys (ledger w).
Proof.
  unfold listed, history, keys. induction (ledger w) as [|kv d IH]; simpl;
    [reflexivity | f_equal; exact IH].
Qed.

Lemma submitted_snoc (runs : list rating_widgets) (i : rating_widgets) :
  submitted (runs ++ [i])
  = submitted runs ++ (if w_submit_rating i then [selected_movie i] else []).
Proof.
  unfold submitted. rewrite List.filter_app, map_app. simpl.
  destruct (w_submit_rating i); reflexivity.
Qed.

(** C9. Start a session without a ledger, let any runs of the ratings page
    happen, then submit a rating for a title and submit another rating for
    the same title. The ledger then holds exactly one entry for the title:
    the rating, the review and the time of the second submission. *)
Theorem resubmission_overwrites
    (w0 : world) (runs : list rating_widgets) (t : string)
    (r1 r2 : Z) (rv1 rv2 : string) (n1 n2 : float) :
  user_ratings (session w0) = None ->
  let w := visits (runs ++ [RatingWidgets t r1 rv1 true n1;
                            RatingWidgets t r2 rv2 true n2]) w0 in
  entries_for t (ledger w) = [(t, Entry r2 rv2 n2)]
  /\ getitem t (ledger w) = Some (Entry r2 rv2 n2).
Proof.
  intros H0 w. subst w.
  change [RatingWidgets t r1 rv1 true n1; RatingWidgets t r2 rv2 true n2]
    with ([RatingWidgets t r1 rv1 true n1] ++ [RatingWidgets t r2 rv2 true n2]).
  rewrite app_assoc, visits_snoc, ledger_your_ratings. simpl. split.
  - apply entries_for_setitem, visits_NoDup, H0.
  - apply getitem_setitem.
Qed.

(** C10. In every sequence of runs of the ratings page that starts without
    a ledger, the history table lists each submitted title once, at the
    place of its first submission: a later submission for the same title
    does not move it. *)
Theorem listing_in_first_submission_order (w0 : world) (runs : list rating_widgets) :
  user_ratings (session w0) = None ->
  listed (visits runs w0) = first_occurrences (submitted runs).
Proof.
  intros H0. rewrite listed_keys.
  induction runs as [|i runs IH] using rev_ind.
  - unfold visits, ledger. simpl. rewrite H0. reflexivity.
  - rewrite visits_snoc, ledger_your_ratings, submitted_snoc.
    destruct (w_submit_rating i).
    + destruct (in_dec string_dec (selected_movie i) (submitted runs)) as [Hin|Hout].
      * rewrite (first_occurrences_snoc_seen _ _ Hin), <- IH.
        apply keys_setitem_present. rewrite IH.
        apply first_occurrences_In, Hin.
      * rewrite (first_occurrences_snoc_new _ _ Hout), <- IH.
        apply keys_setitem_absent. rewrite IH.
        rewrite first_occurrences_In. exact Hout.
    + rewrite app_nil_r. exact IH.
Qed.

Lemma resubmission_overwrites_witness :
  entries_for "Inception" (ledger (visits [seven_for_inception; nine_for_inception] signed_in))
  = [("Inception"%string, Entry 9 "Better the second time." 1762290060%float)]
  /\ getitem "Inception" (ledger (visits [seven_for_inception; nine_for_inception] signed_in))
     = Some (Entry 9 "Better the second time." 1762290060%float).
Proof.
  apply (resubmission_overwrites signed_in [] "Inception" 7 9
           "" "Better the second time." 1762290000%float 1762290060%float).
  reflexivity.
Defined.

Lemma listing_in_first_submission_order_witness :
  listed (visits [seven_for_inception; eight_for_the_matrix; looks_at_the_page;
                  nine_for_inception] signed_in)
  = ["Inception"; "The Matrix"]%string.
Proof.
  apply (listing_in_first_submission_order signed_in
           [seven_for_inception; eight_for_the_matrix; looks_at_the_page;
            nine_for_inception]).
  reflexivity.
Defined.

(** The history table after these four runs: Inception stays in the first
    row and shows the second rating. *)
Example history_after_resubmission :
  history (ledger (visits [seven_for_inception; eight_for_the_matrix;
                           looks_at_the_page; nine_for_inception] signed_in))
  = [("Inception"%string, 9, "Better the second time."%string);
     ("The Matrix"%string, 8, ""%string)].
Proof. reflexivity. Qed.

End LedgerFacts.

(** ** The session as a state machine *)

Module AppFacts.
Import Catalog Query Auth Ledger App.

(** *** What one run changes *)

Lemma your_ratings_frame (i : rating_widgets) (w : world) :
  authenticated (session (your_ratings i w)) = authenticated (session w)
  /\ username (session (your_ratings i w)) = username (session w)
  /\ users (session (your_ratings i w)) = users (session w)
  /\ files (your_ratings i w) = files w.
Proof.
  unfold your_ratings. cbv zeta.
  destruct (w_submit_rating i), (user_ratings (session w)) as [d|]; simpl;
    try (destruct (setitem _ _ d)); try (destruct d); simpl; repeat split.
Qed.

(** The runs of [login_page], by what they do to the world. *)
Lemma login_page_cases (i : login_widgets) (w : world) :
  let w' := fst (login_page i w) in
  user_ratings (session w') = user_ratings (session w)
  /\ ((session w' = session w /\ files w' = files w)
      \/ (w_submit i = true
          /\ (exists digest, users (session w) !! w_username i = Some digest
                             /\ check_hashes (w_password i) digest = true)
          /\ session w' = log_in (session w) (w_username i)
          /\ files w' = files w)
      \/ (w_register i = true
          /\ users (session w) !! w_new_username i = None
          /\ session w'
             = set_users (session w)
                 (<[w_new_username i := make_hashes (w_new_password i)]> (users (session w)))
          /\ files w' = save_users (users (session w')) (files w))).
Proof.
  unfold login_page, login_form, register_form. cbv zeta.
  destruct (w_submit i) eqn:Hs.
  - destruct (users (session w) !! w_username i) as [d|] eqn:Hd.
    + destruct (check_hashes (w_password i) d) eqn:Hc; simpl.
      * split; [reflexivity|]. right. left. eauto 10.
      * destruct (w_register i) eqn:Hr; simpl; [|tauto].
        destruct (users (session w) !! w_new_username i) eqn:Hn; simpl; [tauto|].
        split; [reflexivity|]. right. right. auto.
    + simpl. destruct (w_register i) eqn:Hr; simpl; [|tauto].
      destruct (users (session w) !! w_new_username i) eqn:Hn; simpl; [tauto|].
      split; [reflexivity|]. right. right. auto.
  - destruct (w_register i) eqn:Hr; simpl; [|tauto].
    destruct (users (session w) !! w_new_username i) eqn:Hn; simpl; [tauto|].
    split; [reflexivity|]. right. right. auto.
Qed.

Section Script.
Variable sort_values : DataFrame -> DataFrame.

(** The runs of [main_app], by what they do to the world. *)
Lemma main_app_cases (i : app_widgets) (w w' : world) (c : content) (k : control) :
  main_app sort_values i w = Some (w', c, k) ->
  users (session w') = users (session w)
  /\ files w' = files w
  /\ ledger w'
     = (match app_mode i with
        | YourRatings =>
            if w_submit_rating (rating_w i)
            then setitem (selected_movie (rating_w i))
                   (Entry (w_rating (rating_w i)) (w_review (rating_w i))
                      (now (rating_w i))) (ledger w)
            else ledger w
        | _ => ledger w
        end)
  /\ (if logout_clicked i
      then authenticated (session w') = false /\ username (session w') = None
           /\ k = Rerun
      else authenticated (session w') = authenticated (session w)
           /\ username (session w') = username (session w)
           /\ k = Finished).
Proof.
  unfold main_app. cbv zeta. intros H.
  pose proof (your_ratings_frame (rating_w i) w) as (Ha & Hu & Hus & Hf).
  pose proof (LedgerFacts.ledger_your_ratings (rating_w i) w) as Hl.
  destruct (app_mode i);
    try (destruct (recommendations_page sort_values load_data i); [|discriminate]);
    destruct (logout_clicked i); injection H as <- <- <-; simpl;
    unfold ledger in *; simpl; repeat split; auto.
Qed.

Lemma script_cases (i : script_widgets) (w w' : world) (k : control) :
  script sort_values i w = Some (w', k) ->
  (authenticated (session w) = true
   /\ exists c, main_app sort_values (app_w i) w = Some (w', c, k))
  \/ (authenticated (session w) = false /\ w' = fst (login_page (login_w i) w)).
Proof.
  unfold script. destruct (authenticated (session w)).
  - destruct (main_app sort_values (app_w i) w) as [[[w1 c] k1]|]; [|discriminate].
    intros [= <- <-]. left. eauto.
  - intros [= H]. right. split; [reflexivity|]. rewrite H. reflexivity.
Qed.

(** A property that every run keeps holds after any number of runs. *)
Lemma session_runs_keep (P : world -> Prop) :
  (forall i w w' k, P w -> script sort_values i w = Some (w', k) -> P w') ->
  forall runs w w', P w -> session_runs sort_values runs w = Some w' -> P w'.
Proof.
  intros Hstep runs. induction runs as [|i runs IH]; simpl; intros w w' HP H.
  - injection H as <-. exact HP.
  - destruct (script sort_values i w) as [[w1 k]|] eqn:E; [|discriminate].
    apply (IH w1); [|exact H]. apply (Hstep i w w1 k); assumption.
Qed.

Lemma script_keeps_users (i : script_widgets) (w w' : world) (k : control)
    (name digest : string) :
  script sort_values i w = Some (w', k) ->
  users (session w) !! name = Some digest ->
  users (session w') !! name = Some digest.
Proof.
  intros H Hd. apply script_cases in H as [[_ [c H]]|[_ ->]].
  - apply main_app_cases in H as (-> & _). exact Hd.
  - destruct (login_page_cases (login_w i) w) as (_ & [[-> _]|[(_ & _ & -> & _)|(_ & Hn & -> & _)]]);
      simpl; try exact Hd.
    rewrite lookup_insert_ne; [exact Hd|]. congruence.
Qed.

(** X5. Along the runs of a session, whatever the widgets deliver, a name
    in the store keeps the digest it has: no run removes a user or changes
    a stored digest. *)
Theorem users_never_change (runs : list script_widgets) (w w' : world)
    (name digest : string) :
  session_runs sort_values runs w = Some w' ->
  users (session w) !! name = Some digest ->
  users (session w') !! name = Some digest.
Proof.
  intros H Hd.
  apply (session_runs_keep (fun v => users (session v) !! name = Some digest)
           (fun i v v' k Hv Hs => script_keeps_users i v v' k name digest Hs Hv)
           runs w w' Hd H).
Qed.

Lemma script_keeps_consistent (i : script_widgets) (w w' : world) (k : control) :
  consistent w -> script sort_values i w = Some (w', k) -> consistent w'.
Proof.
  unfold consistent. intros [Ha Hu] H.
  apply script_cases in H as [[Hauth [c H]]|[Hauth ->]].
  - apply main_app_cases in H as (Hus & _ & _ & Hl). rewrite Hus.
    destruct (logout_clicked (app_w i)).
    + destruct Hl as (-> & -> & _). split.
      * split; [discriminate | intros [? ?]; discriminate].
      * intros name [=].
    + destruct Hl as (-> & -> & _). split; assumption.
  - destruct (login_page_cases (login_w i) w)
      as (_ & [[-> _]|[(_ & (d & Hd & _) & -> & _)|(_ & Hn & -> & _)]]); simpl.
    + split; assumption.
    + split.
      * split; [intros _; eauto | reflexivity].
      * intros name [= <-]. eauto.
    + split; [exact Ha|]. intros name Hname.
      destruct (Hu name Hname) as [d Hd]. exists d.
      rewrite lookup_insert_ne; [exact Hd|]. congruence.
Qed.

Lemma script_keeps_synced (i : script_widgets) (w w' : world) (k : control) :
  synced w -> script sort_values i w = Some (w', k) -> synced w'.
Proof.
  unfold synced. intros Hs H.
  apply script_cases in H as [[_ [c H]]|[_ ->]].
  - apply main_app_cases in H as (-> & -> & _). exact Hs.
  - destruct (login_page_cases (login_w i) w)
      as (_ & [[-> ->]|[(_ & _ & -> & ->)|(_ & _ & _ & ->)]]); simpl; try exact Hs.
    unfold load_users, open_rb, save_users. rewrite lookup_insert_eq. reflexivity.
Qed.

Lemma start_world (fs : file_system) (w0 : world) :
  start fs = inr w0 ->
  exists u, load_users fs = inr u /\ w0 = World (Session false None u None) fs [].
Proof.
  unfold start, new_session. destruct (load_users fs) as [e|u]; [discriminate|].
  intros [= <-]. eauto.
Qed.

(** X6. In every session, from its first run in any directory and whatever
    the widgets deliver: the session is authenticated exactly when it has
    a user name, and that name is a registered one. *)
Theorem session_consistent (fs : file_system) (w0 w : world)
    (runs : list script_widgets) :
  start fs = inr w0 ->
  session_runs sort_values runs w0 = Some w ->
  consistent w.
Proof.
  intros H0 H. apply (session_runs_keep consistent script_keeps_consistent runs w0 w);
    [|exact H].
  apply start_world in H0 as (u & _ & ->). unfold consistent. simpl. split.
  - split; [discriminate | intros [? ?]; discriminate].
  - intros name [=].
Qed.

(** X7. In every session, from its first run in any directory: the file
    [users.pkl], as [load_users] reads it, holds the store of the session
    after every run (a registration writes the whole store back). *)
Theorem file_matches_session (fs : file_system) (w0 w : world)
    (runs : list script_widgets) :
  start fs = inr w0 ->
  session_runs sort_values runs w0 = Some w ->
  synced w.
Proof.
  intros H0 H. apply (session_runs_keep synced script_keeps_synced runs w0 w);
    [|exact H].
  apply start_world in H0 as (u & Hu & ->). exact Hu.
Qed.

(** X8. A run turns an unauthenticated session into an authenticated one
    only through the login form: Login is pressed, the name is in the
    store, the digest of the typed password is the stored digest, and the
    session is authenticated under that name. *)
Theorem authentication_requires_password
    (i : script_widgets) (w w' : world) (k : control) :
  script sort_values i w = Some (w', k) ->
  authenticated (session w) = false ->
  authenticated (session w') = true ->
  w_submit (login_w i) = true
  /\ users (session w) !! w_username (login_w i)
     = Some (make_hashes (w_password (login_w i)))
  /\ username (session w') = Some (w_username (login_w i))
  /\ k = Rerun.
Proof.
  intros H Hf Ht. unfold script in H. rewrite Hf in H. injection H as H.
  revert H Ht. unfold login_page, login_form, register_form.
  destruct (w_submit (login_w i)).
  - destruct (users (session w) !! w_username (login_w i)) as [d|] eqn:Hd.
    + destruct (check_hashes (w_password (login_w i)) d) eqn:Hc.
      * intros [= <- <-] _. apply String.eqb_eq in Hc. subst d. auto.
      * simpl. destruct (w_register (login_w i)); simpl;
          [destruct (users (session w) !! w_new_username (login_w i))|];
          intros [= <- <-]; simpl; congruence.
    + simpl. destruct (w_register (login_w i)); simpl;
        [destruct (users (session w) !! w_new_username (login_w i))|];
        intros [= <- <-]; simpl; congruence.
  - simpl. destruct (w_register (login_w i)); simpl;
      [destruct (users (session w) !! w_new_username (login_w i))|];
      intros [= <- <-]; simpl; congruence.
Qed.

Lemma script_keeps_ledger (i : script_widgets) (w w' : world) (k : control) :
  submits_rating i = false ->
  script sort_values i w = Some (w', k) -> ledger w' = ledger w.
Proof.
  unfold submits_rating. intros Hn H.
  apply script_cases in H as [[_ [c H]]|[_ ->]].
  - apply main_app_cases in H as (_ & _ & -> & _).
    destruct (app_mode (app_w i)); try reflexivity. rewrite Hn. reflexivity.
  - destruct (login_page_cases (login_w i) w) as (Hr & _).
    unfold ledger. rewrite Hr. reflexivity.
Qed.

(** X9. The ledger of ratings belongs to the session, not to the user: it
    changes only in a run of the ratings section with Submit Rating
    pressed. Logging out, registering and logging in, under the same name
    or another one, leave every entry in place. *)
Theorem ledger_survives_logout (runs : list script_widgets) (w w' : world) :
  Forall (fun i => submits_rating i = false) runs ->
  session_runs sort_values runs w = Some w' ->
  ledger w' = ledger w.
Proof.
  revert w. induction runs as [|i runs IH]; simpl; intros w Hn H.
  - injection H as <-. reflexivity.
  - apply Forall_cons in Hn as [Hi Hn].
    destruct (script sort_values i w) as [[w1 k]|] eqn:E; [|discriminate].
    rewrite (IH w1 Hn H). apply (script_keeps_ledger i w w1 k Hi E).
Qed.

End Script.

End AppFacts.

(** ** The store on disk, across sessions *)

Module StoreFacts.
Import Auth App.

Lemma load_saved (u : gmap string string) (fs : file_system) :
  load_users (save_users u fs) = inr u.
Proof.
  unfold load_users, open_rb, save_users. rewrite lookup_insert_eq. reflexivity.
Qed.

(** X10. Saving a store and loading it gives the store back, whatever the
    file held before, readable or not; no other file is touched. *)
Theorem save_then_load (u : gmap string string) (fs : file_system) :
  load_users (save_users u fs) = inr u
  /\ (forall path : string, path <> "users.pkl"%string ->
        save_users u fs !! path = fs !! path).
Proof.
  split; [apply load_saved|].
  intros path Hp. unfold save_users. apply lookup_insert_ne. congruence.
Qed.

Lemma register_new (w : world) (name password : string) :
  users (session w) !! name = None ->
  fst (login_page (registers name password) w)
  = World (set_users (session w) (<[name := make_hashes password]> (users (session w))))
          (save_users (<[name := make_hashes password]> (users (session w))) (files w))
          (page w ++ [st_success "Registration successful! Please login."]).
Proof.
  intros Hn. unfold login_page, login_form, register_form, registers. simpl.
  rewrite Hn. reflexivity.
Qed.

Lemma login_registered (w : world) (name password : string) :
  users (session w) !! name = Some (make_hashes password) ->
  login_page (logs_in name password) w
  = (World (log_in (session w) name) (files w)
           (page w ++ [st_success "Login successful!"]), Rerun).
Proof.
  intros Hd. unfold login_page, login_form, logs_in. simpl. rewrite Hd.
  unfold check_hashes. rewrite String.eqb_refl. reflexivity.
Qed.

Lemma login_unknown (w : world) (name password : string) :
  users (session w) !! name = None ->
  login_page (logs_in name password) w
  = (World (session w) (files w) (page w ++ [UnknownUser]), Finished).
Proof.
  intros Hn. unfold login_page, login_form, register_form, logs_in. simpl.
  rewrite Hn. reflexivity.
Qed.

(** X11. A registration outlives the session: after a new name is
    registered, a session started later from the same directory loads a
    store with that name, and logging in there with the registered password
    succeeds. *)
Theorem registration_persists (w : world) (name password : string) :
  users (session w) !! name = None ->
  let w1 := fst (login_page (registers name password) w) in
  exists w2 w3 : world,
    start (files w1) = inr w2
    /\ users (session w2) = <[name := make_hashes password]> (users (session w))
    /\ login_page (logs_in name password) w2 = (w3, Rerun)
    /\ authenticated (session w3) = true
    /\ username (session w3) = Some name.
Proof.
  intros Hn w1. subst w1. rewrite (register_new w name password Hn).
  unfold start, new_session. simpl.
  rewrite load_saved. eexists. eexists.
  split; [reflexivity|]. split; [reflexivity|].
  split; [apply login_registered; simpl; apply lookup_insert_eq|].
  split; reflexivity.
Qed.

(** X12. Two sessions on one directory each keep a store of their own, and
    a registration writes the whole store of its session. When two sessions
    hold the same store, one registers [a] and the other then registers
    [b], the file holds [b] and no longer [a], and a session started
    afterwards answers UnknownUser to [a]. *)
Theorem concurrent_registration_lost (w0 : world) (a b pa pb : string) :
  a <> b ->
  users (session w0) !! a = None ->
  users (session w0) !! b = None ->
  let first := fst (login_page (registers a pa) w0) in
  let second :=
    fst (login_page (registers b pb) (World (session w0) (files first) (page w0))) in
  load_users (files first) = inr (<[a := make_hashes pa]> (users (session w0)))
  /\ load_users (files second) = inr (<[b := make_hashes pb]> (users (session w0)))
  /\ exists w : world,
       start (files second) = inr w
       /\ login_page (logs_in a pa) w
          = (World (session w) (files w) (page w ++ [UnknownUser]), Finished).
Proof.
  intros Hab Ha Hb first second. subst first second.
  rewrite (register_new w0 a pa Ha). simpl.
  rewrite (register_new _ b pb); [|exact Hb]. simpl.
  rewrite !load_saved. split; [reflexivity|]. split; [reflexivity|].
  unfold start, new_session. rewrite load_saved. eexists. split; [reflexivity|].
  apply login_unknown. simpl. rewrite lookup_insert_ne; [exact Ha | congruence].
Qed.

End StoreFacts.

(** ** More on the two queries *)

Module RecommendationFacts.
Import Catalog Query SortFacts App.

Lemma append_empty (s : string) : (s ++ "")%string = s.
Proof.
  induction s as [|c s IH]; [reflexivity|].
  change (String c (s ++ "")%string = String c s). f_equal. exact IH.
Qed.

(** A string contains itself. *)
Lemma contains_ci_refl (s : string) : Text.contains_ci s s.
Proof.
  exists EmptyString, EmptyString. simpl. rewrite append_empty. reflexivity.
Qed.

(** X13. The explorer compares genres for equality, the recommendations
    search for the genre string: for a genre string with no special
    character (and other than "All"), every row the explorer shows passes
    the filter of the recommendations for the same string, minimum rating
    and years. *)
Theorem explorer_within_recommendations
    (movies : DataFrame) (g : string) (yr : Z * Z) (m : float) (r : MovieRecord) :
  Text.plain g ->
  g <> "All"%string ->
  In r (explorer movies g yr m) ->
  exists filtered : DataFrame,
    filtered_movies movies g m yr = Some filtered /\ In r filtered.
Proof.
  intros Hg Hall Hr.
  exists (List.filter (mask (Text.literals g) m yr) movies).
  split; [apply QueryFacts.filtered_plain, Hg|].
  unfold explorer in Hr. apply String.eqb_neq in Hall. rewrite Hall in Hr.
  apply filter_In in Hr as [Hr Hc]. apply filter_In in Hr as [Hr He].
  apply String.eqb_eq in He.
  apply andb_true_iff in Hc as [Hc Hm]. apply andb_true_iff in Hc as [Hlo Hhi].
  apply filter_In. split; [exact Hr|].
  apply QueryFacts.mask_satisfies. unfold satisfies.
  rewrite He. split; [apply contains_ci_refl|].
  split; [exact Hm|]. apply Z.leb_le in Hlo, Hhi. lia.
Qed.

Lemma contains_ci_lower (s g g' : string) :
  Text.str_lower g = Text.str_lower g' ->
  Text.contains_ci s g <-> Text.contains_ci s g'.
Proof. unfold Text.contains_ci. intros ->. reflexivity. Qed.

(** X14. The case of the genre string does not matter: two strings with no
    special character that differ only in case give the same
    recommendations, for every catalog and every sort. *)
Theorem recommendations_ignore_case
    (sort_values : DataFrame -> DataFrame)
    (movies : DataFrame) (g g' : string) (m : float) (yr : Z * Z) :
  Text.plain g -> Text.plain g' ->
  Text.str_lower g = Text.str_lower g' ->
  get_recommendations sort_values movies g m yr
  = get_recommendations sort_values movies g' m yr.
Proof.
  intros Hg Hg' Hl. unfold get_recommendations.
  rewrite (QueryFacts.filtered_plain movies g m yr Hg),
          (QueryFacts.filtered_plain movies g' m yr Hg').
  replace (List.filter (mask (Text.literals g') m yr) movies)
    with (List.filter (mask (Text.literals g) m yr) movies); [reflexivity|].
  apply List.filter_ext. intros r. apply Bool.eq_iff_eq_true.
  rewrite !QueryFacts.mask_satisfies. unfold satisfies.
  rewrite (contains_ci_lower (genre r) g g' Hl). reflexivity.
Qed.

(** What the pattern "." matches: any string with a character other than
    the line feed. *)
Lemma re_search_any (s : string) :
  Text.re_search [Text.AnyChar] s = true
  <-> exists c, In c (list_ascii_of_string s) /\ Text.ord c <> 10.
Proof.
  induction s as [|c s IH]; simpl.
  - split; [discriminate | intros (c & [] & _)].
  - rewrite orb_true_iff, IH, andb_true_r, negb_true_iff, Z.eqb_neq. split.
    + intros [H|(x & Hx & Hn)]; [exists c; auto | exists x; auto].
    + intros (x & [<-|Hx] & Hn); [left; exact Hn | right; eauto].
Qed.

(** X3. The genre string is a regular expression, not a substring: for
    every catalog the string "." selects the rows by rating and year alone,
    whatever their genre (any genre with a character other than a line
    feed matches). *)
Theorem dot_selects_every_genre
    (movies : DataFrame) (m : float) (yr : Z * Z) :
  exists filtered : DataFrame,
    filtered_movies movies "." m yr = Some filtered
    /\ forall r : MovieRecord,
         In r filtered
         <-> In r movies
             /\ (exists c, In c (list_ascii_of_string (genre r)) /\ Text.ord c <> 10)
             /\ float_ge (rating r) m = true
             /\ fst yr <= year r <= snd yr.
Proof.
  exists (List.filter (mask [Text.AnyChar] m yr) movies). split; [reflexivity|].
  intros r. rewrite filter_In, QueryFacts.mask_true, re_search_any. reflexivity.
Qed.

Lemma fold_min_le (ys : list Z) (y : Z) :
  fold_left Z.min ys y <= y /\ Forall (fun x => fold_left Z.min ys y <= x) ys.
Proof.
  revert y. induction ys as [|x ys IH]; intros y; simpl; [split; [lia | constructor]|].
  destruct (IH (Z.min y x)) as [H1 H2]. split; [lia|].
  constructor; [lia | exact H2].
Qed.

Lemma fold_max_ge (ys : list Z) (y : Z) :
  y <= fold_left Z.max ys y /\ Forall (fun x => x <= fold_left Z.max ys y) ys.
Proof.
  revert y. induction ys as [|x ys IH]; intros y; simpl; [split; [lia | constructor]|].
  destruct (IH (Z.max y x)) as [H1 H2]. split; [lia|].
  constructor; [lia | exact H2].
Qed.

Lemma year_bounds (movies : DataFrame) (lo hi : Z) (r : MovieRecord) :
  year_min movies = Some lo -> year_max movies = Some hi ->
  In r movies -> lo <= year r <= hi.
Proof.
  unfold year_min, year_max. intros Hlo Hhi Hr.
  apply (in_map year) in Hr. destruct (map year movies) as [|y ys]; [discriminate|].
  injection Hlo as <-. injection Hhi as <-.
  destruct (fold_min_le ys y) as [Hy Hys], (fold_max_ge ys y) as [Hy' Hys'].
  rewrite Forall_forall in Hys, Hys'.
  destruct Hr as [<-|Hr]; [lia|]. apply list_elem_of_In in Hr.
  split; [apply Hys, Hr | apply Hys', Hr].
Qed.

(** X19. The year slider of the explorer starts at the whole range, from
    the earliest to the latest year of the catalog. At that value the years
    exclude nothing: for every non-empty catalog the explorer shows exactly
    the rows of the selected genre (any genre for "All") with a rating at
    least the minimum. On an empty catalog there are no bounds to set the
    slider with. *)
Theorem explorer_default_years
    (movies : DataFrame) (selected : string) (m : float) :
  (movies = [] -> year_min movies = None /\ year_max movies = None)
  /\ (movies <> [] ->
      exists lo hi : Z,
        year_min movies = Some lo /\ year_max movies = Some hi
        /\ forall r, In r (explorer movies selected (lo, hi) m)
                     <-> In r movies
                         /\ (selected = "All"%string \/ genre r = selected)
                         /\ float_ge (rating r) m = true).
Proof.
  split; [intros ->; split; reflexivity|].
  intros Hne. destruct movies as [|x movies]; [contradiction|].
  eexists. eexists. split; [reflexivity|]. split; [reflexivity|].
  intros r. split.
  - intros H. unfold explorer in H. apply filter_In in H as [H Hc].
    apply andb_true_iff in Hc as [_ Hm].
    destruct (String.eqb selected "All") eqn:E.
    + apply String.eqb_eq in E. tauto.
    + apply filter_In in H as [H Hg]. apply String.eqb_eq in Hg. tauto.
  - intros (Hr & Hg & Hm). unfold explorer. apply filter_In. split.
    + destruct (String.eqb selected "All") eqn:E; [exact Hr|].
      apply String.eqb_neq in E. apply filter_In. split; [exact Hr|].
      apply String.eqb_eq. tauto.
    + pose proof (year_bounds (x :: movies) _ _ r eq_refl eq_refl Hr) as Hy.
      cbn [fst snd]. rewrite Hm, andb_true_r, andb_true_iff, !Z.leb_le. lia.
Qed.

Lemma filter_length_le {A : Type} (f g : A -> bool) (l : list A) :
  (forall x, f x = true -> g x = true) ->
  (length (List.filter f l) <= length (List.filter g l))%nat.
Proof.
  intros Hfg. induction l as [|x l IH]; simpl; [lia|].
  destruct (f x) eqn:Hf.
  - rewrite (Hfg x Hf). simpl. lia.
  - destruct (g x); simpl; lia.
Qed.

Lemma genre_options_catalog :
  genre_options load_data = ["Drama"; "Crime"; "Action"; "Sci-Fi"; "Thriller"]%string.
Proof. vm_compute. reflexivity. Qed.

Section Contract.
Variable sort_values : DataFrame -> DataFrame.
Hypothesis contract : sort_contract sort_values.

Lemma recommendations_plain (movies : DataFrame) (g : string) (m : float) (yr : Z * Z) :
  Text.plain g ->
  let filtered := List.filter (mask (Text.literals g) m yr) movies in
  get_recommendations sort_values movies g m yr
  = Some (firstn 5 (sort_values filtered))
  /\ no_nan filtered
  /\ (forall r, In r filtered <-> In r movies /\ satisfies g m yr r).
Proof.
  intros Hg filtered. pose proof (QueryFacts.filtered_plain movies g m yr Hg) as Hf.
  split; [unfold get_recommendations; rewrite Hf; reflexivity|].
  split; [exact (QueryFacts.filtered_no_nan _ _ _ _ _ Hf)|].
  intros r. unfold filtered. rewrite filter_In, QueryFacts.mask_satisfies. reflexivity.
Qed.

(** X15. On the catalog of [load_data], for every genre the select box
    offers, every minimum rating and every range of years: the
    recommendations are exactly the rows of the catalog that satisfy the
    predicate (genre contains the string whatever the case, rating at least
    the minimum, year in the closed range). No genre has more than three
    movies, so [head(5)] cuts nothing, and no genre label has a special
    character. *)
Theorem catalog_recommendations_exact (g : string) (m : float) (yr : Z * Z) :
  In g (genre_options load_data) ->
  exists res : DataFrame,
    get_recommendations sort_values load_data g m yr = Some res
    /\ (forall r, In r res <-> In r load_data /\ satisfies g m yr r)
    /\ (length res <= 3)%nat.
Proof.
  intros Hg. rewrite genre_options_catalog in Hg.
  assert (Text.plain g
          /\ (length (List.filter (fun r => Text.re_search (Text.literals g) (genre r))
                        load_data) <= 3)%nat) as [Hp Hlen].
  { simpl in Hg. repeat (destruct Hg as [<-|Hg]); try contradiction;
      (split; [repeat constructor | vm_compute; lia]). }
  destruct (recommendations_plain load_data g m yr Hp) as (Hrec & Hn & Hin).
  set (filtered := List.filter (mask (Text.literals g) m yr) load_data) in *.
  assert (length filtered <= 3)%nat as Hf.
  { etransitivity; [|exact Hlen]. apply filter_length_le.
    intros x Hx. apply QueryFacts.mask_true in Hx. tauto. }
  assert (firstn 5 (sort_values filtered) = sort_values filtered) as Hall.
  { apply firstn_all2. rewrite (sort_values_length sort_values contract _ Hn). lia. }
  exists (sort_values filtered). rewrite Hrec, Hall.
  split; [reflexivity|]. split.
  - intros r. rewrite (sort_values_In sort_values contract _ r Hn). apply Hin.
  - rewrite (sort_values_length sort_values contract _ Hn). exact Hf.
Qed.

(** X16. The recommendations section, for a genre string with no special
    character, once Get Recommendations is pressed. When no row of the
    catalog satisfies the predicate it shows the warning and nothing else.
    Otherwise it shows the success message and one expander for each of
    between one and five rows, all of which satisfy the predicate. *)
Theorem recommendations_page_shows (movies : DataFrame) (i : app_widgets) :
  Text.plain (favorite_genre i) ->
  recommend_clicked i = true ->
  exists shown : list rec_element,
    recommendations_page sort_values movies i = Some shown
    /\ ((forall r, In r movies ->
           ~ satisfies (favorite_genre i) (min_rating i) (years_range i) r) ->
        shown = [rec_warning "No movies match your criteria. Try broadening your search."])
    /\ ((exists r, In r movies
                   /\ satisfies (favorite_genre i) (min_rating i) (years_range i) r) ->
        exists recs : DataFrame,
          shown = rec_success "Here are movies you might enjoy:" :: map rec_expander recs
          /\ (1 <= length recs <= 5)%nat
          /\ forall r, In r recs ->
               In r movies
               /\ satisfies (favorite_genre i) (min_rating i) (years_range i) r).
Proof.
  intros Hp Hc.
  destruct (recommendations_plain movies (favorite_genre i) (min_rating i)
              (years_range i) Hp) as (Hrec & Hn & Hin).
  set (filtered := List.filter (mask (Text.literals (favorite_genre i)) (min_rating i)
                                  (years_range i)) movies) in *.
  set (recs := firstn 5 (sort_values filtered)) in *.
  assert (length recs = Nat.min 5 (length filtered)) as Hlen.
  { unfold recs. rewrite length_firstn.
    rewrite (sort_values_length sort_values contract _ Hn). reflexivity. }
  exists (recommendations_shown recs).
  split; [unfold recommendations_page; rewrite Hc, Hrec; reflexivity|].
  unfold recommendations_shown. split.
  - intros Hnone. destruct filtered as [|r f] eqn:E.
    + simpl in Hlen. destruct recs; [reflexivity | discriminate].
    + exfalso. apply (Hnone r); apply (Hin r); left; reflexivity.
  - intros (r & Hr & Hs). exists recs.
    assert (In r filtered) as Hrf by (apply Hin; tauto).
    assert (1 <= length filtered)%nat as Hpos
      by (destruct filtered; [destruct Hrf | simpl; lia]).
    assert ((0 <? length recs)%nat = true) as -> by (apply Nat.ltb_lt; lia).
    split; [reflexivity|]. split; [lia|].
    intros x Hx. apply Hin.
    apply (sort_values_In sort_values contract filtered x Hn).
    rewrite <- (firstn_skipn 5 (sort_values filtered)).
    apply in_or_app. left. exact Hx.
Qed.

End Contract.

End RecommendationFacts.

(** ** More on the ledger and on digests *)

Module EntryFacts.
Import Catalog Auth Ledger App.

Lemma getitem_setitem_ne {V : Type} (k t : string) (v : V) (d : dict V) :
  k <> t -> getitem t (setitem k v d) = getitem t d.
Proof.
  intros Hne. induction d as [|[k' v'] d IH]; simpl.
  - apply String.eqb_neq in Hne. rewrite Hne. reflexivity.
  - destruct (String.eqb k' k) eqn:E; simpl.
    + apply String.eqb_eq in E. subst k'.
      apply String.eqb_neq in Hne. rewrite Hne. reflexivity.
    + rewrite IH. reflexivity.
Qed.

Lemma last_submission_snoc (t : string) (runs : list rating_widgets) (i : rating_widgets) :
  last_submission t (runs ++ [i])
  = if w_submit_rating i && String.eqb (selected_movie i) t
    then Some (Entry (w_rating i) (w_review i) (now i))
    else last_submission t runs.
Proof.
  induction runs as [|j runs IH]; simpl.
  - destruct (w_submit_rating i && String.eqb (selected_movie i) t); reflexivity.
  - rewrite IH.
    destruct (w_submit_rating i && String.eqb (selected_movie i) t); reflexivity.
Qed.

(** X17. In a session that starts without a ledger, after any runs of the
    ratings page, the entry the ledger holds for a title is the one of the
    last submission for that title, and there is none when no run
    submitted a rating for it. *)
Theorem last_submission_wins (w0 : world) (runs : list rating_widgets) (t : string) :
  user_ratings (session w0) = None ->
  getitem t (ledger (visits runs w0)) = last_submission t runs.
Proof.
  intros H0. induction runs as [|i runs IH] using rev_ind.
  - unfold visits, ledger. simpl. rewrite H0. reflexivity.
  - rewrite LedgerFacts.visits_snoc, LedgerFacts.ledger_your_ratings,
            last_submission_snoc.
    destruct (w_submit_rating i); simpl; [|exact IH].
    destruct (String.eqb (selected_movie i) t) eqn:E.
    + apply String.eqb_eq in E. subst t. apply LedgerFacts.getitem_setitem.
    + apply String.eqb_neq in E. rewrite getitem_setitem_ne by exact E. exact IH.
Qed.

Lemma setitem_Forall {V : Type} (P : string * V -> Prop) (k : string) (v : V) (d : dict V) :
  P (k, v) -> Forall P d -> Forall P (setitem k v d).
Proof.
  intros Hk Hd. induction Hd as [|[k' v'] d Hx Hd IH]; simpl.
  - repeat constructor. exact Hk.
  - destruct (String.eqb k' k) eqn:E.
    + apply String.eqb_eq in E. subst k'. constructor; assumption.
    + constructor; assumption.
Qed.

(** X18. In a session that starts without a ledger, when every run's
    widgets hold what the movie select box and the rating slider offer,
    every entry of the ledger is for a title of the catalog with a rating
    between 1 and 10, no title has two entries, and the ledger never has
    more entries than the catalog has movies. *)
Theorem ledger_entries_offered (w0 : world) (runs : list rating_widgets) :
  user_ratings (session w0) = None ->
  Forall (fun i => In (selected_movie i) (movie_options load_data)
                   /\ 1 <= w_rating i <= 10) runs ->
  Forall offered (ledger (visits runs w0))
  /\ NoDup (keys (ledger (visits runs w0)))
  /\ (length (ledger (visits runs w0)) <= length load_data)%nat.
Proof.
  intros H0 Hruns.
  assert (Forall offered (ledger (visits runs w0))) as Hall.
  { induction runs as [|i runs IH] using rev_ind.
    - unfold visits, ledger. simpl. rewrite H0. constructor.
    - apply Forall_app in Hruns as [Hruns Hi].
      apply Forall_cons in Hi as [Hi _].
      rewrite LedgerFacts.visits_snoc, LedgerFacts.ledger_your_ratings.
      destruct (w_submit_rating i); [|apply IH, Hruns].
      apply setitem_Forall; [exact Hi | apply IH, Hruns]. }
  pose proof (LedgerFacts.visits_NoDup runs w0 H0) as Hnd.
  split; [exact Hall|]. split; [exact Hnd|].
  replace (length (ledger (visits runs w0)))
    with (length (keys (ledger (visits runs w0))))
    by (unfold keys; apply length_map).
  replace (length load_data) with (length (movie_options load_data))
    by (unfold movie_options; apply length_map).
  apply List.NoDup_incl_length; [apply NoDup_ListNoDup, Hnd|].
  intros k Hk. unfold keys in Hk. apply in_map_iff in Hk as (kv & <- & Hkv).
  rewrite Forall_forall in Hall. apply list_elem_of_In in Hkv.
  apply (Hall kv Hkv).
Qed.

(** *** The digest is written in lower-case hexadecimal *)

Lemma hex_digit_alphabet (n : Z) : 0 <= n < 16 -> In (Sha256.hex_digit n) hex_alphabet.
Proof.
  intros H. rewrite <- (Z2Nat.id n) by lia.
  assert (Z.to_nat n < 16)%nat as Hk by lia. clear H.
  set (k := Z.to_nat n) in *. clearbody k.
  do 16 (destruct k as [|k]; [vm_compute; tauto|]). lia.
Qed.

Lemma be_bytes_range (k : nat) (n : Z) :
  Forall (fun b => 0 <= b < 256) (Sha256.be_bytes k n).
Proof.
  induction k as [|k IH]; simpl; constructor; [|exact IH].
  change 255 with (Z.ones 8). rewrite Z.land_ones by lia.
  apply Z.mod_pos_bound. lia.
Qed.

Lemma hex_alphabet_bytes (bs : list Z) :
  Forall (fun b => 0 <= b < 256) bs ->
  Forall (fun c => In c hex_alphabet) (list_ascii_of_string (Sha256.hex bs)).
Proof.
  intros H. induction H as [|b bs Hb H IH]; simpl; constructor.
  - apply hex_digit_alphabet. rewrite Z.shiftr_div_pow2 by lia.
    change (2 ^ 4) with 16. split.
    + apply Z.div_pos; lia.
    + apply Z.div_lt_upper_bound; lia.
  - constructor; [|exact IH].
    apply hex_digit_alphabet. change 15 with (Z.ones 4).
    rewrite Z.land_ones by lia. apply Z.mod_pos_bound. lia.
Qed.

(** X4. Whatever the password, the digest that [make_hashes] returns is a
    string of 64 characters, each of them one of 0-9 and a-f. *)
Theorem make_hashes_hex (p : string) :
  String.length (make_hashes p) = 64%nat
  /\ Forall (fun c => In c hex_alphabet) (list_ascii_of_string (make_hashes p)).
Proof.
  split; [apply AuthFacts.make_hashes_length|].
  unfold make_hashes, Sha256.hexdigest, Sha256.digest. cbv zeta.
  apply hex_alphabet_bytes. apply Forall_concat.
  rewrite Forall_forall. intros l Hl.
  apply list_elem_of_In, in_map_iff in Hl as (x & <- & _). apply be_bytes_range.
Qed.

End EntryFacts.

(** ** The theorems on the evening *)

Module EveningFacts.
Import Catalog Query Auth Ledger App Scenario Evening SortFacts.

Lemma plain_Crime : Text.plain "Crime".
Proof. repeat constructor. Defined.

Lemma plain_CRIME : Text.plain "CRIME".
Proof. repeat constructor. Defined.

Lemma users_never_change_witness :
  users (session closing) !! "alice"
  = Some "4104d36f8da2c254349f85836793ebe029e0c957063a34c91c2e9203187b5631"%string.
Proof.
  apply (AppFacts.users_never_change sort_stable (alice_part ++ bob_part) registered closing).
  - vm_compute. reflexivity.
  - vm_compute. reflexivity.
Defined.

Lemma session_consistent_witness : consistent closing.
Proof.
  apply (AppFacts.session_consistent sort_stable ∅ first_run closing evening).
  - reflexivity.
  - vm_compute. reflexivity.
Defined.

Lemma file_matches_session_witness : synced closing.
Proof.
  apply (AppFacts.file_matches_session sort_stable ∅ first_run closing evening).
  - reflexivity.
  - vm_compute. reflexivity.
Defined.

Lemma authentication_requires_password_witness :
  w_submit (login_w (on_login alice_logs_in)) = true
  /\ users (session registered) !! w_username (login_w (on_login alice_logs_in))
     = Some (make_hashes (w_password (login_w (on_login alice_logs_in))))
  /\ username (session signed_in) = Some (w_username (login_w (on_login alice_logs_in)))
  /\ Rerun = Rerun.
Proof.
  apply (AppFacts.authentication_requires_password sort_stable
           (on_login alice_logs_in) registered signed_in Rerun).
  - vm_compute. reflexivity.
  - reflexivity.
  - vm_compute. reflexivity.
Defined.

Lemma ledger_survives_logout_witness : ledger closing = ledger rated.
Proof.
  apply (AppFacts.ledger_survives_logout sort_stable bob_part rated closing).
  - repeat constructor.
  - vm_compute. reflexivity.
Defined.

(** After the evening Bob is logged in and the ratings section shows him
    the rating that Alice gave. *)
Example bob_sees_the_rating_of_alice :
  username (session closing) = Some "bob"%string
  /\ history (ledger closing)
     = [("Inception"%string, 9, "Better the second time."%string)].
Proof. vm_compute. split; reflexivity. Qed.

Lemma registration_persists_witness :
  exists w2 w3 : world,
    start (files (fst (login_page (registers "alice" "correct horse") first_run)))
    = inr w2
    /\ users (session w2)
       = <["alice"%string := make_hashes "correct horse"]> (users (session first_run))
    /\ login_page (logs_in "alice" "correct horse") w2 = (w3, Rerun)
    /\ authenticated (session w3) = true
    /\ username (session w3) = Some "alice"%string.
Proof.
  apply (StoreFacts.registration_persists first_run "alice" "correct horse").
  reflexivity.
Defined.

Lemma concurrent_registration_lost_witness :
  load_users (files (fst (login_page (registers "alice" "correct horse") first_run)))
  = inr (<["alice"%string := make_hashes "correct horse"]> (users (session first_run)))
  /\ load_users
       (files (fst (login_page (registers "bob" "hunter2")
                      (World (session first_run)
                         (files (fst (login_page (registers "alice" "correct horse")
                                        first_run)))
                         (page first_run)))))
     = inr (<["bob"%string := make_hashes "hunter2"]> (users (session first_run)))
  /\ exists w : world,
       start (files (fst (login_page (registers "bob" "hunter2")
                            (World (session first_run)
                               (files (fst (login_page
                                              (registers "alice" "correct horse")
                                              first_run)))
                               (page first_run)))))
       = inr w
       /\ login_page (logs_in "alice" "correct horse") w
          = (World (session w) (files w) (page w ++ [UnknownUser]), Finished).
Proof.
  apply (StoreFacts.concurrent_registration_lost first_run "alice" "bob"
           "correct horse" "hunter2").
  - discriminate.
  - reflexivity.
  - reflexivity.
Defined.

Lemma explorer_within_recommendations_witness :
  exists filtered : DataFrame,
    filtered_movies load_data "Crime" 8.5%float (1972, 2010) = Some filtered
    /\ In godfather filtered.
Proof.
  apply (RecommendationFacts.explorer_within_recommendations
           load_data "Crime" (1972, 2010) 8.5%float godfather plain_Crime).
  - discriminate.
  - vm_compute. tauto.
Defined.

Lemma recommendations_ignore_case_witness :
  get_recommendations sort_stable load_data "Crime" 8.5%float (1972, 2000)
  = get_recommendations sort_stable load_data "CRIME" 8.5%float (1972, 2000).
Proof.
  apply (RecommendationFacts.recommendations_ignore_case sort_stable load_data
           "Crime" "CRIME" 8.5%float (1972, 2000) plain_Crime plain_CRIME).
  reflexivity.
Defined.

Lemma catalog_recommendations_exact_witness :
  exists res : DataFrame,
    get_recommendations sort_stable load_data "Sci-Fi" 8.5%float (1972, 2000) = Some res
    /\ (forall r, In r res
                  <-> In r load_data /\ satisfies "Sci-Fi" 8.5%float (1972, 2000) r)
    /\ (length res <= 3)%nat.
Proof.
  apply (RecommendationFacts.catalog_recommendations_exact sort_stable
           sort_stable_contract "Sci-Fi" 8.5%float (1972, 2000)).
  vm_compute. tauto.
Defined.

Lemma recommendations_page_shows_witness :
  exists shown : list rec_element,
    recommendations_page sort_stable load_data asks_for_crime = Some shown
    /\ ((forall r, In r load_data ->
           ~ satisfies (favorite_genre asks_for_crime) (min_rating asks_for_crime)
               (years_range asks_for_crime) r) ->
        shown = [rec_warning "No movies match your criteria. Try broadening your search."])
    /\ ((exists r, In r load_data
                   /\ satisfies (favorite_genre asks_for_crime) (min_rating asks_for_crime)
                        (years_range asks_for_crime) r) ->
        exists recs : DataFrame,
          shown = rec_success "Here are movies you might enjoy:" :: map rec_expander recs
          /\ (1 <= length recs <= 5)%nat
          /\ forall r, In r recs ->
               In r load_data
               /\ satisfies (favorite_genre asks_for_crime) (min_rating asks_for_crime)
                    (years_range asks_for_crime) r).
Proof.
  apply (RecommendationFacts.recommendations_page_shows sort_stable
           sort_stable_contract load_data asks_for_crime).
  - exact plain_Crime.
  - reflexivity.
Defined.

(** What the section shows for that request. *)
Example crime_page :
  recommendations_page sort_stable load_data asks_for_crime
  = Some [rec_success "Here are movies you might enjoy:";
          rec_expander godfather; rec_expander pulp_fiction; rec_expander goodfellas].
Proof. vm_compute. reflexivity. Qed.

Lemma last_submission_wins_witness :
  getitem "Inception"
    (ledger (visits [seven_for_inception; eight_for_the_matrix; looks_at_the_page;
                     nine_for_inception] signed_in))
  = last_submission "Inception"
      [seven_for_inception; eight_for_the_matrix; looks_at_the_page; nine_for_inception].
Proof.
  apply (EntryFacts.last_submission_wins signed_in
           [seven_for_inception; eight_for_the_matrix; looks_at_the_page;
            nine_for_inception] "Inception").
  reflexivity.
Defined.

Lemma ledger_entries_offered_witness :
  Forall offered
    (ledger (visits [seven_for_inception; eight_for_the_matrix; nine_for_inception]
               signed_in))
  /\ NoDup (keys (ledger (visits [seven_for_inception; eight_for_the_matrix;
                                  nine_for_inception] signed_in)))
  /\ (length (ledger (visits [seven_for_inception; eight_for_the_matrix;
                              nine_for_inception] signed_in))
      <= length load_data)%nat.
Proof.
  apply (EntryFacts.ledger_entries_offered signed_in
           [seven_for_inception; eight_for_the_matrix; nine_for_inception]).
  - reflexivity.
  - repeat constructor; try (vm_compute; tauto); vm_compute; discriminate.
Defined.

End EveningFacts.

(** ** The order of ties under the sort that pandas runs *)

Module PandasFacts.
Import Catalog Query SortFacts Pandas.








(** The sort that pandas runs meets the contract from which the other
    properties of the query are proved; on the catalog it gives the crime
    movies in the order of their ratings. *)
Example crime_recommendations_quicksort :
  get_recommendations sort_values_quicksort load_data "Crime" 8.5%float (1970, 2000)
  = Some [godfather; pulp_fiction; goodfellas].
Proof. vm_compute. reflexivity. Qed.

(** The query for "Sci-Fi" keeps The Matrix before Star Wars: Episode V,
    both rated 8.7, as the catalog has them. *)
Example science_fiction_ties :
  get_recommendations sort_values_quicksort load_data "Sci-Fi" 8.5%float (1970, 2000)
  = Some [the_matrix; star_wars_v].
Proof. vm_compute. reflexivity. Qed.


End PandasFacts.
